(** * My Swing Admin: dashboard page and image-upload endpoint

    A shallow embedding of the two request handlers of the admin dashboard:

    - [Dashboard.getServerSideProps] (the index page): the period switch, the
      count queries degraded through [getCountOrZero], the metric arithmetic,
      the three per-day chart series and the in-app-message statistics;
    - [Upload.handler] (pages/api/upload/image.ts): the method and field
      checks, the storage key, the MIME lookup and the response written.

    Conventions of the embedding.

    - A JavaScript [Date] is its local time value in milliseconds (the wall
      clock of the server, taken without daylight-saving shifts).  The
      calendar functions follow ECMAScript's [Day], [DayFromYear],
      [MonthFromTime], [MakeDay], and the date-fns helpers are written from
      their definitions on top of them.
    - Counts returned by the backend are cardinalities ([N]); metric
      arithmetic is carried out in [Z], and quotients in [Q] (the page
      evaluates the same expressions in double precision).
    - Strings are sequences of 8-bit characters.
    - [console.error] appends to an explicit log; the upload handler threads
      an explicit world (responses sent, headers, storage calls, log) and
      exceptions are a sum type.
    - The answers of the backend, of the storage service and of the
      session helpers are inputs: a function from queries to responses, and
      the outcome of each call. *)

From Stdlib Require Import ZArith QArith Qabs Qround Qminmax Lia Bool Ascii String DecimalString.
From Stdlib Require DecimalPos DecimalZ.
From stdpp Require Import base option list gmap strings.

Local Open Scope Z_scope.

(* ------------------------------------------------------------------------- *)
(** ** Calendar: ECMAScript time values and the date-fns helpers *)
(* ------------------------------------------------------------------------- *)

Module Calendar.

(** A [Date]: milliseconds of local time since the epoch. *)
Definition Date := Z.

Definition msPerDay : Z := 86400000.

(** ECMAScript [Day(t)] and [TimeWithinDay(t)]. *)
Definition Day (t : Date) : Z := t / msPerDay.
Definition TimeWithinDay (t : Date) : Z := t mod msPerDay.

(** ECMAScript [MakeDate(day, time)]. *)
Definition MakeDate (day time : Z) : Date := day * msPerDay + time.

(** ECMAScript [DayFromYear(y)]: the day number of 1 January of year [y]. *)
Definition DayFromYear (y : Z) : Z :=
  365 * (y - 1970) + (y - 1969) / 4 - (y - 1901) / 100 + (y - 1601) / 400.

Definition InLeapYear (y : Z) : bool :=
  (y mod 4 =? 0) && (negb (y mod 100 =? 0) || (y mod 400 =? 0)).

Definition leapDay (y : Z) : Z := if InLeapYear y then 1 else 0.

(** ECMAScript [YearFromTime]: the largest [y] with [DayFromYear y <= d],
    computed from the mean year length and one correction step. *)
Definition YearFromDay (d : Z) : Z :=
  let y0 := 1970 + (400 * d) / 146097 in
  if d <? DayFromYear y0 then y0 - 1
  else if DayFromYear (y0 + 1) <=? d then y0 + 1
  else y0.

(** Days of the year before month [m] (0 = January), as in the table of
    ECMAScript's [MonthFromTime]; [l] is 1 in a leap year. *)
Definition DayFromMonth (m l : Z) : Z :=
  if m <=? 0 then 0
  else if m =? 1 then 31
  else if m =? 2 then 59 + l
  else if m =? 3 then 90 + l
  else if m =? 4 then 120 + l
  else if m =? 5 then 151 + l
  else if m =? 6 then 181 + l
  else if m =? 7 then 212 + l
  else if m =? 8 then 243 + l
  else if m =? 9 then 273 + l
  else if m =? 10 then 304 + l
  else 334 + l.

Definition DayWithinYear (d : Z) : Z := d - DayFromYear (YearFromDay d).

(** ECMAScript [MonthFromTime], on day numbers. *)
Definition MonthFromDay (d : Z) : Z :=
  let w := DayWithinYear d in
  let l := leapDay (YearFromDay d) in
  if w <? 31 then 0
  else if w <? 59 + l then 1
  else if w <? 90 + l then 2
  else if w <? 120 + l then 3
  else if w <? 151 + l then 4
  else if w <? 181 + l then 5
  else if w <? 212 + l then 6
  else if w <? 243 + l then 7
  else if w <? 273 + l then 8
  else if w <? 304 + l then 9
  else if w <? 334 + l then 10
  else 11.

(** ECMAScript [DateFromTime]: the day of the month, from 1. *)
Definition DateFromDay (d : Z) : Z :=
  DayWithinYear d - DayFromMonth (MonthFromDay d) (leapDay (YearFromDay d)) + 1.

(** ECMAScript [MakeDay(year, month, date)]: months and dates out of range
    carry over, which is what [setDate], [setMonth] and [setFullYear] rely on. *)
Definition MakeDay (year month date : Z) : Z :=
  let ym := year + month / 12 in
  let mn := month mod 12 in
  DayFromYear ym + DayFromMonth mn (leapDay ym) + date - 1.

(** The getters of a [Date]. *)
Definition getFullYear (t : Date) : Z := YearFromDay (Day t).
Definition getMonth (t : Date) : Z := MonthFromDay (Day t).
Definition getDate (t : Date) : Z := DateFromDay (Day t).

(** date-fns [startOfDay]: [setHours(0, 0, 0, 0)]. *)
Definition startOfDay (t : Date) : Date := MakeDate (Day t) 0.

(** date-fns [endOfDay]: [setHours(23, 59, 59, 999)]. *)
Definition endOfDay (t : Date) : Date := MakeDate (Day t) (msPerDay - 1).

(** date-fns [addDays]: [setDate(getDate() + amount)]. *)
Definition addDays (t : Date) (amount : Z) : Date :=
  MakeDate (MakeDay (getFullYear t) (getMonth t) (getDate t + amount))
           (TimeWithinDay t).

(** date-fns [subDays]. *)
Definition subDays (t : Date) (amount : Z) : Date := addDays t (- amount).

(** date-fns [startOfMonth]: [setDate(1); setHours(0, 0, 0, 0)]. *)
Definition startOfMonth (t : Date) : Date :=
  MakeDate (MakeDay (getFullYear t) (getMonth t) 1) 0.

(** date-fns [endOfMonth]:
    [setFullYear(year, month + 1, 0); setHours(23, 59, 59, 999)]. *)
Definition endOfMonth (t : Date) : Date :=
  MakeDate (MakeDay (getFullYear t) (getMonth t + 1) 0) (msPerDay - 1).

(** date-fns [addMonths]: the day of the month is kept unless the target
    month is shorter, in which case the last day of that month is returned. *)
Definition addMonths (t : Date) (amount : Z) : Date :=
  let dayOfMonth := getDate t in
  let endOfDesiredMonth :=
    MakeDate (MakeDay (getFullYear t) (getMonth t + amount + 1) 0)
             (TimeWithinDay t) in
  let daysInMonth := getDate endOfDesiredMonth in
  if daysInMonth <=? dayOfMonth then endOfDesiredMonth
  else MakeDate (MakeDay (getFullYear endOfDesiredMonth)
                         (getMonth endOfDesiredMonth) dayOfMonth)
                (TimeWithinDay t).

(** date-fns [subMonths]. *)
Definition subMonths (t : Date) (amount : Z) : Date := addMonths t (- amount).

(** The loop of date-fns [eachDayOfInterval]:
    [while (+date <= endTime) { push(date); date.setDate(date.getDate() + 1);
    date.setHours(0, 0, 0, 0) }]. *)
Fixpoint eachDayLoop (fuel : nat) (date endTime : Date) : list Date :=
  match fuel with
  | O => []
  | S fuel' =>
      if date <=? endTime
      then date :: eachDayLoop fuel' (startOfDay (addDays date 1)) endTime
      else []
  end.

(** date-fns [eachDayOfInterval({start, end})].  An interval whose start is
    after its end is refused ([None]: the RangeError of date-fns 2; later
    versions return the days in reverse, a case the page never reaches).
    The loop is given one step more than the days it can push, so that it
    stops on its own condition. *)
Definition eachDayOfInterval (start end_ : Date) : option (list Date) :=
  if end_ <? start then None
  else Some (eachDayLoop (S (Z.to_nat (Day end_ - Day start + 1)))
                         (startOfDay start) end_).

(** date-fns [isSameDay] on a parsed timestamp ([None] is the Invalid Date
    that [parseISO] returns for a string it cannot read: it is the same day
    as nothing) and a day of the series. *)
Definition isSameDay (a : option Date) (b : Date) : bool :=
  match a with
  | Some a' => startOfDay a' =? startOfDay b
  | None => false
  end.

(** The index of a month on the line of all months: twelve per year. *)
Definition monthIndex (d : Z) : Z := 12 * YearFromDay d + MonthFromDay d.

(** The day number of the first day of the month of index [k]. *)
Definition monthStart (k : Z) : Z := MakeDay 0 k 1.

(** A civil date, for writing concrete instants. *)
Definition civil (year month date hours minutes : Z) : Date :=
  MakeDate (MakeDay year (month - 1) date) ((hours * 60 + minutes) * 60000).

End Calendar.

(* ------------------------------------------------------------------------- *)
(** ** The dashboard page *)
(* ------------------------------------------------------------------------- *)

Module Dashboard.
Import Calendar.

(** What the page takes from its libraries and does not compute itself:
    the session types of [requireAdminSession], the timestamp parsers
    ([parseISO] of date-fns and the [Date] constructor, [None] being the
    Invalid Date) and the formatters (date-fns [format] with ['EEE dd'] in the
    French locale, and the two [Intl.NumberFormat] instances). *)
Class Host := {
  Session : Type;
  Redirect : Type;
  parseISO : string -> option Date;
  newDate : string -> option Date;
  formatDay : Date -> string;
  numberFormatter : Z -> string;
  percentFormatter : Q -> string;
}.

(** *** Backend responses *)

Record Row := { created_at : string }.

(** A PostgREST response: [{ data, count, error }]. *)
Record Response := {
  error : option string;
  data : option (list Row);
  count : option N;
}.

(** The response of a failed query, as the client library types it:
    [{ error, data: null, count: null }]. *)
Definition failure (e : string) : Response :=
  {| error := Some e; data := None; count := None |}.

(** The response of a successful count query ([head: true]). *)
Definition counted (c : N) : Response :=
  {| error := None; data := None; count := Some c |}.

(** The response of a successful row query. *)
Definition rows (l : list Row) : Response :=
  {| error := None; data := Some l; count := None |}.

(** A query of the page: [from(table).select(columns, options)] with the
    filters chained on it. *)
Record Query := {
  table : string;
  head_only : bool;                   (* { count: 'exact', head: true } *)
  gte_created_at : option Date;
  lt_created_at : option Date;
  eq_true : option string;            (* .eq(column, true) *)
}.

(** A row of [in_app_messages], with the columns the page selects and
    reads ([None] is null). *)
Record Message := {
  title : option string;
  is_active : option bool;
  start_date : option string;
  target_user_ids : option (list string);
  updated_at : option string;
  m_created_at : option string;       (* [created_at] *)
}.

(** The response of the [in_app_messages] query: [{ data, error }]. *)
Record MessagesResponse := {
  m_data : option (list Message);
  m_error : option string;
}.

(** The backend as the page sees it: an answer to each query. *)
Record Backend := {
  select : Query -> Response;
  selectMessages : MessagesResponse;
}.

(** *** Props of the page *)

Record MessageStats := {
  total : nat;
  active : nat;
  targeted : nat;
  upcoming : nat;
  lastMessageTitle : option string;
  lastMessageUpdatedAt : option string;
  generatedAt : Date;
}.

Record MetricData := {
  current : Z;
  previous : option Z;
  delta : Z;
  deltaPercentage : option Q;
}.

Record RateMetricData := {
  optedIn : Z;
  r_total : Z;                        (* [total] *)
  rate : Q;
}.

Record ConsentMetrics := {
  marketing : RateMetricData;
  improvement : RateMetricData;
}.

Record ChartPoint := { name : string; value : nat }.

Record DashboardMetrics := {
  d_generatedAt : Date;               (* [generatedAt] *)
  totalUsers : MetricData;
  weeklySignups : MetricData;
  analyses : MetricData;
  waitlist : MetricData;
  consent : ConsentMetrics;
  userGrowthData : list ChartPoint;
  analysisActivityData : list ChartPoint;
  waitlistGrowthData : list ChartPoint;
}.

(** [console.error(message, error)]. *)
Record LogEntry := { log_message : string; log_error : string }.

(** Computations that write to the console. *)
Definition Console (A : Type) : Type := list LogEntry -> A * list LogEntry.

#[global] Instance Console_ret : MRet Console := fun A a log => (a, log).
#[global] Instance Console_bind : MBind Console :=
  fun A B f m log => let '(a, log') := m log in f a log'.

Definition console_error (msg err : string) : Console unit :=
  fun log => (tt, log ++ [{| log_message := msg; log_error := err |}]).

(** [context.query.period]: absent, a string, or an array of strings. *)
Inductive QueryValue :=
| QAbsent
| QString (s : string)
| QArray (l : list string).

(** The four dates the period switch assigns. *)
Record Ranges := {
  startDate : Date;
  endDate : Date;
  previousStartDate : Date;
  previousEndDate : Date;
}.

(** The [switch (period)] of [getServerSideProps]. *)
Definition periodRanges (period : string) (now : Date) : Ranges :=
  if String.eqb period "30d" then
    let startDate := subDays now 29 in
    {| startDate := startDate;
       endDate := now;
       previousStartDate := subDays startDate 30;
       previousEndDate := subDays now 30 |}
  else if String.eqb period "month" then
    {| startDate := startOfMonth now;
       endDate := now;
       previousStartDate := startOfMonth (subMonths now 1);
       previousEndDate := endOfMonth (subMonths now 1) |}
  else if String.eqb period "last_month" then
    {| startDate := startOfMonth (subMonths now 1);
       endDate := endOfMonth (subMonths now 1);
       previousStartDate := startOfMonth (subMonths now 2);
       previousEndDate := endOfMonth (subMonths now 2) |}
  else
    let startDate := subDays now 6 in
    {| startDate := startDate;
       endDate := now;
       previousStartDate := subDays startDate 7;
       previousEndDate := subDays now 7 |}.

Definition startOfPeriod (r : Ranges) : Date := startOfDay (startDate r).
Definition endOfPeriod (r : Ranges) : Date := endOfDay (endDate r).
Definition startOfPreviousPeriod (r : Ranges) : Date :=
  startOfDay (previousStartDate r).
Definition endOfPreviousPeriod (r : Ranges) : Date :=
  endOfDay (previousEndDate r).

(** The queries of the [Promise.all]. *)
Definition countAll (t : string) : Query :=
  {| table := t; head_only := true; gte_created_at := None;
     lt_created_at := None; eq_true := None |}.

Definition countBetween (t : string) (from to : Date) : Query :=
  {| table := t; head_only := true; gte_created_at := Some from;
     lt_created_at := Some to; eq_true := None |}.

Definition countWhere (t column : string) : Query :=
  {| table := t; head_only := true; gte_created_at := None;
     lt_created_at := None; eq_true := Some column |}.

Definition rowsBetween (t : string) (from to : Date) : Query :=
  {| table := t; head_only := false; gte_created_at := Some from;
     lt_created_at := Some to; eq_true := None |}.

(** [getCountOrZero(response, label)]. *)
Definition getCountOrZero (response : Response) (label : string) : Console Z :=
  match error response with
  | Some e =>
      _ ← console_error ("Erreur lors du chargement de " +:+ label +:+ ":") e;
      mret 0
  | None =>
      mret (match count response with Some c => Z.of_N c | None => 0 end)
  end.

(** [previous > 0 ? (delta / previous) * 100 : null]. *)
Definition deltaPercent (delta previous : Z) : option Q :=
  if 0 <? previous
  then Some ((inject_Z delta / inject_Z previous) * 100)%Q
  else None.

(** [total > 0 ? (optIn / total) * 100 : 0]. *)
Definition optInRate (optIn total : Z) : Q :=
  if 0 <? total
  then ((inject_Z optIn / inject_Z total) * 100)%Q
  else 0%Q.

(** The value and the log lines of one [getCountOrZero] call. *)
Definition countOf (response : Response) : Z :=
  (getCountOrZero response "" []).1.

Definition countLog (response : Response) (label : string) : list LogEntry :=
  (getCountOrZero response label []).2.

#[global] Instance Query_eq_dec : EqDecision Query.
Proof. solve_decision. Defined.

(** The backend that answers [r] to the query [q], and as [backend]
    otherwise. *)
Definition answering (backend : Backend) (q : Query) (r : Response) : Backend :=
  {| select := fun q' => if decide (q' = q) then r else select backend q';
     selectMessages := selectMessages backend |}.

(** The backend that answers [mr] to the in-app-message query. *)
Definition withMessages (backend : Backend) (mr : MessagesResponse) : Backend :=
  {| select := select backend; selectMessages := mr |}.

(** The number of calendar days of a window. *)
Definition windowDays (from to : Date) : Z := Day to - Day from + 1.

(** The comparison window of the glossary: as long as the current window,
    and ending where it begins (on the millisecond before). *)
Definition precedesWithEqualLength (r : Ranges) : Prop :=
  endOfPreviousPeriod r - startOfPreviousPeriod r
  = endOfPeriod r - startOfPeriod r
  /\ windowDays (startOfPreviousPeriod r) (endOfPreviousPeriod r)
     = windowDays (startOfPeriod r) (endOfPeriod r)
  /\ endOfPreviousPeriod r + 1 = startOfPeriod r.

(** The days of the chart series of a period: the start of each calendar
    day from the day of [startDate] to the day of [endDate]. *)
Definition seriesDays (r : Ranges) : list Date :=
  (fun day => MakeDate day 0)
    <$> seqZ (Day (startDate r)) (windowDays (startDate r) (endDate r)).

(** A console computation that only appends to the log it is given. *)
Definition appends {A} (m : Console A) : Prop :=
  forall log, m log = ((m []).1, log ++ (m []).2).



Section WithHost.
Context `{Host}.

(** The number of rows whose [created_at] falls on the calendar day [day]. *)
Definition rowsOnDay (day : Z) (l : list Row) : nat :=
  length (filter (fun row => Day <$> parseISO (created_at row) = Some day) l).

(** The rows the chart query of a table fetched: none when it carries no
    data. *)
Definition fetched (backend : Backend) (r : Ranges) (t : string) : list Row :=
  default [] (data (select backend
                      (rowsBetween t (startOfPeriod r) (endOfPeriod r)))).

(** One chart series:
    [days.map(day => ({ name: format(day, 'EEE dd'), value:
    (response.data || []).filter(item =>
    isSameDay(parseISO(item.created_at), day)).length }))]. *)
Definition chartSeries (days : list Date) (response : Response)
  : list ChartPoint :=
  map (fun day =>
         {| name := formatDay day;
            value := length (List.filter
                               (fun item => isSameDay (parseISO (created_at item)) day)
                               (default [] (data response))) |})
      days.

(** [requireAdminSession(context)]: an object with a [session], or the
    result to return as it is. *)
Inductive AdminSession :=
| HasSession (session : Session)
| NoSession (result : Redirect).

Record HomeProps := {
  initialSession : Session;
  messageStats : MessageStats;
  dashboardMetrics : DashboardMetrics;
  selectedPeriod : option string;     (* [None]: the key is not in the props *)
}.

(** What [getServerSideProps] does: return the result of
    [requireAdminSession], return props, or throw. *)
Inductive Result :=
| Returned (result : Redirect)
| Props (props : HomeProps)
| Thrown (error : string).

(** [typeof context.query.period === 'string' ? context.query.period : '7d']. *)
Definition selectPeriod (q : QueryValue) : string :=
  match q with
  | QString s => s
  | _ => "7d"
  end.

(** The counts the page derives its metrics from, in the order of the
    [getCountOrZero] calls. *)
Record Counts := {
  totalUsersCount : Z;
  periodUsersCount : Z;
  previousPeriodUsersCount : Z;
  periodAnalysesCount : Z;
  previousPeriodAnalysesCount : Z;
  consentTotalCount : Z;
  marketingOptInCount : Z;
  improvementOptInCount : Z;
  waitlistPeriodCount : Z;
  waitlistPreviousPeriodCount : Z;
}.

Definition readCounts (backend : Backend) (r : Ranges) : Console Counts :=
  let totalUsersResponse := select backend (countAll "profiles") in
  let periodUsersResponse :=
    select backend (countBetween "profiles" (startOfPeriod r) (endOfPeriod r)) in
  let previousPeriodUsersResponse :=
    select backend (countBetween "profiles" (startOfPreviousPeriod r)
                                 (endOfPreviousPeriod r)) in
  let periodAnalysesResponse :=
    select backend (countBetween "analyses" (startOfPeriod r) (endOfPeriod r)) in
  let previousPeriodAnalysesResponse :=
    select backend (countBetween "analyses" (startOfPreviousPeriod r)
                                 (endOfPreviousPeriod r)) in
  let consentTotalResponse := select backend (countAll "consent") in
  let consentMarketingResponse :=
    select backend (countWhere "consent" "marketing") in
  let consentImprovementResponse :=
    select backend (countWhere "consent" "improvement") in
  let waitlistPeriodResponse :=
    select backend (countBetween "waitlist" (startOfPeriod r) (endOfPeriod r)) in
  let waitlistPreviousPeriodResponse :=
    select backend (countBetween "waitlist" (startOfPreviousPeriod r)
                                 (endOfPreviousPeriod r)) in
  totalUsersCount ← getCountOrZero totalUsersResponse "profiles (total)";
  periodUsersCount ← getCountOrZero periodUsersResponse "profiles (période)";
  previousPeriodUsersCount ←
    getCountOrZero previousPeriodUsersResponse "profiles (période précédente)";
  periodAnalysesCount ←
    getCountOrZero periodAnalysesResponse "analyses (période)";
  previousPeriodAnalysesCount ←
    getCountOrZero previousPeriodAnalysesResponse "analyses (période précédente)";
  consentTotalCount ← getCountOrZero consentTotalResponse "consent (total)";
  marketingOptInCount ←
    getCountOrZero consentMarketingResponse "consent (marketing true)";
  improvementOptInCount ←
    getCountOrZero consentImprovementResponse "consent (improvement true)";
  waitlistPeriodCount ←
    getCountOrZero waitlistPeriodResponse "waitlist (période)";
  waitlistPreviousPeriodCount ←
    getCountOrZero waitlistPreviousPeriodResponse "waitlist (période précédente)";
  mret {| totalUsersCount := totalUsersCount;
          periodUsersCount := periodUsersCount;
          previousPeriodUsersCount := previousPeriodUsersCount;
          periodAnalysesCount := periodAnalysesCount;
          previousPeriodAnalysesCount := previousPeriodAnalysesCount;
          consentTotalCount := consentTotalCount;
          marketingOptInCount := marketingOptInCount;
          improvementOptInCount := improvementOptInCount;
          waitlistPeriodCount := waitlistPeriodCount;
          waitlistPreviousPeriodCount := waitlistPreviousPeriodCount |}.

(** The [dashboardMetrics] object, given the days of the series. *)
Definition buildMetrics (backend : Backend) (r : Ranges) (now : Date)
    (c : Counts) (days : list Date) : DashboardMetrics :=
  let chartProfilesResponse :=
    select backend (rowsBetween "profiles" (startOfPeriod r) (endOfPeriod r)) in
  let chartAnalysesResponse :=
    select backend (rowsBetween "analyses" (startOfPeriod r) (endOfPeriod r)) in
  let chartWaitlistResponse :=
    select backend (rowsBetween "waitlist" (startOfPeriod r) (endOfPeriod r)) in
  let previousTotalUsers :=
    Z.max (totalUsersCount c - periodUsersCount c) 0 in
  let totalUsersDelta := totalUsersCount c - previousTotalUsers in
  let totalUsersDeltaPercent := deltaPercent totalUsersDelta previousTotalUsers in
  let signupsDelta := periodUsersCount c - previousPeriodUsersCount c in
  let signupsDeltaPercent :=
    deltaPercent signupsDelta (previousPeriodUsersCount c) in
  let analysesDelta := periodAnalysesCount c - previousPeriodAnalysesCount c in
  let analysesDeltaPercent :=
    deltaPercent analysesDelta (previousPeriodAnalysesCount c) in
  let waitlistDelta := waitlistPeriodCount c - waitlistPreviousPeriodCount c in
  let waitlistDeltaPercent :=
    deltaPercent waitlistDelta (waitlistPreviousPeriodCount c) in
  let marketingRate := optInRate (marketingOptInCount c) (consentTotalCount c) in
  let improvementRate :=
    optInRate (improvementOptInCount c) (consentTotalCount c) in
  {| d_generatedAt := now;
     totalUsers :=
       {| current := totalUsersCount c;
          previous := Some previousTotalUsers;
          delta := totalUsersDelta;
          deltaPercentage := totalUsersDeltaPercent |};
     weeklySignups :=
       {| current := periodUsersCount c;
          previous := Some (previousPeriodUsersCount c);
          delta := signupsDelta;
          deltaPercentage := signupsDeltaPercent |};
     analyses :=
       {| current := periodAnalysesCount c;
          previous := Some (previousPeriodAnalysesCount c);
          delta := analysesDelta;
          deltaPercentage := analysesDeltaPercent |};
     waitlist :=
       {| current := waitlistPeriodCount c;
          previous := Some (waitlistPreviousPeriodCount c);
          delta := waitlistDelta;
          deltaPercentage := waitlistDeltaPercent |};
     consent :=
       {| marketing :=
            {| optedIn := marketingOptInCount c;
               r_total := consentTotalCount c;
               rate := marketingRate |};
          improvement :=
            {| optedIn := improvementOptInCount c;
               r_total := consentTotalCount c;
               rate := improvementRate |} |};
     userGrowthData := chartSeries days chartProfilesResponse;
     analysisActivityData := chartSeries days chartAnalysesResponse;
     waitlistGrowthData := chartSeries days chartWaitlistResponse |}.

Definition baseStats (now : Date) : MessageStats :=
  {| total := 0; active := 0; targeted := 0; upcoming := 0;
     lastMessageTitle := None; lastMessageUpdatedAt := None;
     generatedAt := now |}.

(** JavaScript truthiness of the message fields the filters test. *)
Definition isActive (m : Message) : bool :=
  match is_active m with Some true => true | _ => false end.

Definition isTargeted (m : Message) : bool :=
  match target_user_ids m with
  | Some ids => bool_decide (0 < length ids)%nat
  | None => false
  end.

Definition isUpcoming (nowForMessages : Date) (m : Message) : bool :=
  match start_date m with
  | None => false
  | Some s =>
      if String.eqb s "" then false
      else match newDate s with
           | Some d => nowForMessages <? d
           | None => false
           end
  end.

Definition messageStatsOf (messages : list Message) (now nowForMessages : Date)
  : MessageStats :=
  {| total := length messages;
     active := length (List.filter isActive messages);
     targeted := length (List.filter isTargeted messages);
     upcoming := length (List.filter (isUpcoming nowForMessages) messages);
     lastMessageTitle := head messages ≫= title;
     lastMessageUpdatedAt :=
       match head messages ≫= updated_at with
       | Some u => Some u
       | None => head messages ≫= m_created_at
       end;
     generatedAt := now |}.

(** [getServerSideProps(context)]; [now] and [nowForMessages] are the two
    readings of the clock. *)
Definition getServerSideProps (adminSession : AdminSession)
    (period : QueryValue) (now nowForMessages : Date) (backend : Backend)
  : Console Result :=
  match adminSession with
  | NoSession result => mret (Returned result)
  | HasSession session =>
      let period := selectPeriod period in
      let r := periodRanges period now in
      c ← readCounts backend r;
      match eachDayOfInterval (startDate r) (endDate r) with
      | None => mret (Thrown "Invalid interval")
      | Some days =>
          let dashboardMetrics := buildMetrics backend r now c days in
          let response := selectMessages backend in
          match m_error response with
          | Some e =>
              _ ← console_error "Erreur lors du chargement des messages:" e;
              mret (Props {| initialSession := session;
                             messageStats := baseStats now;
                             dashboardMetrics := dashboardMetrics;
                             selectedPeriod := None |})
          | None =>
              let messages := default [] (m_data response) in
              let stats := messageStatsOf messages now nowForMessages in
              mret (Props {| initialSession := session;
                             messageStats := stats;
                             dashboardMetrics := dashboardMetrics;
                             selectedPeriod := Some period |})
          end
      end
  end.

(** *** The trend shown on a metric card *)

Inductive TrendVariant := neutral | positive | negative.

Record Trend := { text : string; variant : TrendVariant }.

(** The three exits of [formatTrend]. *)
Inductive TrendBranch := NoPrevious | Percentage (p : Q) | Absolute.

(** Which exit [formatTrend] takes on a metric.  [Number.isFinite] holds of
    every quotient the page computes: the percentage is only taken with a
    positive divisor. *)
Definition trendBranch (metric : MetricData) : TrendBranch :=
  match previous metric with
  | None => NoPrevious
  | Some _ =>
      match deltaPercentage metric with
      | Some p => Percentage p
      | None => Absolute
      end
  end.

Definition trendVariant (delta : Z) : TrendVariant :=
  if delta =? 0 then neutral else if 0 <? delta then positive else negative.

Definition trendPrefix (delta : Z) : string :=
  if 0 <? delta then "+" else if delta <? 0 then "-" else "".

(** [formatTrend(metric, comparisonLabel)]. *)
Definition formatTrend (metric : MetricData) (comparisonLabel : string) : Trend :=
  match trendBranch metric with
  | NoPrevious =>
      {| text := "— " +:+ comparisonLabel; variant := neutral |}
  | Percentage p =>
      let absValue := Qabs p in
      let formatted := percentFormatter absValue +:+ " %" in
      {| text := trendPrefix (delta metric) +:+ formatted +:+ " "
                 +:+ comparisonLabel;
         variant := trendVariant (delta metric) |}
  | Absolute =>
      let absDelta := Z.abs (delta metric) in
      {| text := trendPrefix (delta metric) +:+ numberFormatter absDelta +:+ " "
                 +:+ comparisonLabel;
         variant := trendVariant (delta metric) |}
  end.

End WithHost.

End Dashboard.

(* ------------------------------------------------------------------------- *)
(** ** The image-upload endpoint *)
(* ------------------------------------------------------------------------- *)

Module Upload.

Local Open Scope string_scope.

(** *** Strings *)

Definition inRange (lo hi c : ascii) : bool :=
  (nat_of_ascii lo <=? nat_of_ascii c)%nat && (nat_of_ascii c <=? nat_of_ascii hi)%nat.

Definition isLower (c : ascii) : bool := inRange "a" "z" c.
Definition isUpper (c : ascii) : bool := inRange "A" "Z" c.
Definition isDigit (c : ascii) : bool := inRange "0" "9" c.

(** The class [[a-zA-Z0-9.-]]. *)
Definition isKept (c : ascii) : bool :=
  isLower c || isUpper c || isDigit c || Ascii.eqb c "." || Ascii.eqb c "-".

(** The class [\w]. *)
Definition isWord (c : ascii) : bool :=
  isLower c || isUpper c || isDigit c || Ascii.eqb c "_".

(** [s.replace(/[^a-zA-Z0-9.-]/g, '_')]. *)
Fixpoint sanitize (s : string) : string :=
  match s with
  | EmptyString => EmptyString
  | String c rest => String (if isKept c then c else "_"%char) (sanitize rest)
  end.

Definition lowerChar (c : ascii) : ascii :=
  if isUpper c then ascii_of_nat (nat_of_ascii c + 32) else c.

(** [s.toLowerCase()], on the letters a table key can contain. *)
Fixpoint toLowerCase (s : string) : string :=
  match s with
  | EmptyString => EmptyString
  | String c rest => String (lowerChar c) (toLowerCase rest)
  end.

(** [s.split(sep)] for a one-character separator: never empty. *)
Fixpoint split (sep : ascii) (s : string) : list string :=
  match s with
  | EmptyString => [EmptyString]
  | String c rest =>
      if Ascii.eqb c sep then EmptyString :: split sep rest
      else match split sep rest with
           | seg :: segs => String c seg :: segs
           | [] => [String c EmptyString]
           end
  end.

(** [s] without the prefix [p], when it starts with it. *)
Fixpoint stripPrefix (p s : string) : option string :=
  match p, s with
  | EmptyString, _ => Some s
  | String a p', String b s' => if Ascii.eqb a b then stripPrefix p' s' else None
  | String _ _, EmptyString => None
  end.

(** [s] after its longest prefix of [\w] characters, and the length of
    that prefix. *)
Fixpoint skipWord (s : string) : nat * string :=
  match s with
  | String c rest =>
      if isWord c then let '(n, r) := skipWord rest in (S n, r) else (O, s)
  | EmptyString => (O, s)
  end.

(** [file.replace(/^data:image\/\w+;base64,/, '')]. *)
Definition stripDataUri (file : string) : string :=
  match stripPrefix "data:image/" file with
  | Some rest =>
      match skipWord rest with
      | (S _, rest') =>
          match stripPrefix ";base64," rest' with
          | Some payload => payload
          | None => file
          end
      | (O, _) => file
      end
  | None => file
  end.

(** The decimal text of an integer, as a template literal prints a time
    value. *)
Definition decimal (n : Z) : string := NilZero.string_of_int (Z.to_int n).

(** *** Requests, responses and the world of the handler *)

(** A field of the parsed body, as far as the handler can tell values apart. *)
Inductive JsValue :=
| JUndefined
| JNull
| JBool (b : bool)
| JNumber (n : Z)
| JString (s : string)
| JObject.

Definition truthy (v : JsValue) : bool :=
  match v with
  | JUndefined | JNull => false
  | JBool b => b
  | JNumber n => negb (n =? 0)%Z
  | JString s => negb (String.eqb s "")
  | JObject => true
  end.

(** [req.body]: absent, or something with a [file] and a [fileName]
    (both undefined for a body that is no object with these keys). *)
Inductive Body :=
| NoBody
| Fields (file fileName : JsValue).

Record Request := {
  method : option string;
  body : Body;
}.

Inductive Json :=
| ErrorJson (error : string)
| UploadedJson (url path : string).

Record HttpResponse := { status : Z; json : Json }.

(** [NodeBuffer.from(data, 'base64')]. *)
Inductive Buffer := BufferFromBase64 (data : string).

(** A value read from the [mimeTypes] object: one of its strings, or a
    member it inherits from [Object.prototype]. *)
Inductive ContentType :=
| Mime (s : string)
| ObjectMember (name : string).

Record StorageCall := {
  bucket : string;
  key : string;
  payload : Buffer;
  contentType : ContentType;
  upsert : bool;
}.

(** What is thrown: an [Error] with its message, or another value. *)
Inductive Exception :=
| JsError (message : string)
| JsThrown.

Inductive UploadOutcome :=
| Uploaded
| UploadFailed (message : string)      (* [{ error }] *)
| UploadThrew (e : Exception).

Inductive UrlOutcome :=
| UrlData (publicUrl : option string)  (* [{ data: { publicUrl } }] *)
| UrlThrew (e : Exception).

(** [assertApiAdmin(req, res)]: resolves, or throws after answering the
    caller itself. *)
Inductive AdminCheck :=
| Granted
| Rejected (answer : list HttpResponse).

(** What the handler's calls answer on a request. *)
Record Env := {
  assertApiAdmin : Request -> AdminCheck;
  dateNow : Z;
  storageUpload : StorageCall -> UploadOutcome;
  getPublicUrl : string -> UrlOutcome;
}.

Record World := {
  sent : list HttpResponse;
  headers : list (string * string);
  stored : list StorageCall;
  console : list string;
}.

Definition emptyWorld : World :=
  {| sent := []; headers := []; stored := []; console := [] |}.

(** Computations of the handler: a world threaded through, and a result or
    an exception. *)
Definition Handler (A : Type) : Type := World -> (Exception + A) * World.

#[global] Instance Handler_ret : MRet Handler := fun A a w => (inr a, w).
#[global] Instance Handler_bind : MBind Handler :=
  fun A B f m w =>
    match m w with
    | (inr a, w') => f a w'
    | (inl e, w') => (inl e, w')
    end.

Definition throw {A} (e : Exception) : Handler A := fun w => (inl e, w).

(** [try { body } catch (error) { handle(error) }]. *)
Definition tryCatch {A} (body : Handler A) (handle : Exception -> Handler A)
  : Handler A :=
  fun w =>
    match body w with
    | (inr a, w') => (inr a, w')
    | (inl e, w') => handle e w'
    end.

(** [res.status(code).json(body)]. *)
Definition respond (code : Z) (j : Json) : Handler unit :=
  fun w => (inr tt, {| sent := sent w ++ [{| status := code; json := j |}];
                       headers := headers w;
                       stored := stored w;
                       console := console w |}).

Definition setHeader (k v : string) : Handler unit :=
  fun w => (inr tt, {| sent := sent w;
                       headers := headers w ++ [(k, v)];
                       stored := stored w;
                       console := console w |}).

Definition consoleError (msg : string) : Handler unit :=
  fun w => (inr tt, {| sent := sent w;
                       headers := headers w;
                       stored := stored w;
                       console := console w ++ [msg] |}).

(** The call is recorded whether or not the storage accepts it. *)
Definition recordUpload (c : StorageCall) : Handler unit :=
  fun w => (inr tt, {| sent := sent w;
                       headers := headers w;
                       stored := stored w ++ [c];
                       console := console w |}).

(** A string method called on a value: a [TypeError] unless it is a string. *)
Definition asString (v : JsValue) (what : string) : Handler string :=
  match v with
  | JString s => mret s
  | _ => throw (JsError (what +:+ " is not a function"))
  end.

(** *** Storage key and content type *)

(** [`messages/${timestamp}-${sanitizedFileName}`]. *)
Definition filePathOf (timestamp : Z) (fileName : string) : string :=
  let sanitizedFileName := sanitize fileName in
  let uniqueFileName := decimal timestamp +:+ "-" +:+ sanitizedFileName in
  "messages/" +:+ uniqueFileName.

(** [fileName.split('.').pop()?.toLowerCase() || 'jpg']. *)
Definition fileExtensionOf (fileName : string) : string :=
  match last (split "." fileName) with
  | Some seg =>
      let lowered := toLowerCase seg in
      if String.eqb lowered "" then "jpg" else lowered
  | None => "jpg"
  end.

(** The [mimeTypes] object literal. *)
Definition mimeTypes : gmap string string :=
  list_to_map
    [ ("jpg", "image/jpeg");
      ("jpeg", "image/jpeg");
      ("png", "image/png");
      ("gif", "image/gif");
      ("webp", "image/webp");
      ("svg", "image/svg+xml") ].

(** The members every object literal inherits from [Object.prototype]. *)
Definition objectPrototype : list string :=
  [ "constructor"; "__defineGetter__"; "__defineSetter__"; "hasOwnProperty";
    "__lookupGetter__"; "__lookupSetter__"; "isPrototypeOf";
    "propertyIsEnumerable"; "toString"; "valueOf"; "__proto__";
    "toLocaleString" ].

(** [mimeTypes[key]]: an own property, else an inherited one, else
    undefined. *)
Definition mimeTypesGet (key : string) : option ContentType :=
  match mimeTypes !! key with
  | Some m => Some (Mime m)
  | None =>
      if bool_decide (key ∈ objectPrototype) then Some (ObjectMember key)
      else None
  end.

(** [mimeTypes[fileExtension] || 'image/jpeg']: every value the lookup can
    return is truthy. *)
Definition contentTypeOf (fileName : string) : ContentType :=
  default (Mime "image/jpeg") (mimeTypesGet (fileExtensionOf fileName)).

(** *** The handler *)

(** The body of the second [try]. *)
Definition uploadImage (env : Env) (req : Request) : Handler unit :=
  match body req with
  | NoBody => throw (JsError "Cannot destructure property 'file' of 'req.body'")
  | Fields file fileName =>
      if negb (truthy file) || negb (truthy fileName) then
        respond 400 (ErrorJson "Fichier et nom de fichier requis")
      else
        file ← asString file "file.replace";
        let base64Data := stripDataUri file in
        let buffer := BufferFromBase64 base64Data in
        let timestamp := dateNow env in
        fileName ← asString fileName "fileName.replace";
        let filePath := filePathOf timestamp fileName in
        let contentType := contentTypeOf fileName in
        let call := {| bucket := "Images"; key := filePath; payload := buffer;
                       contentType := contentType; upsert := false |} in
        _ ← recordUpload call;
        match storageUpload env call with
        | UploadThrew e => throw e
        | UploadFailed message =>
            _ ← consoleError "Upload error:";
            respond 500 (ErrorJson ("Erreur lors de l'upload: " +:+ message))
        | Uploaded =>
            match getPublicUrl env filePath with
            | UrlThrew e => throw e
            | UrlData publicUrl =>
                match publicUrl with
                | Some url =>
                    if String.eqb url "" then
                      respond 500
                        (ErrorJson "Erreur lors de la récupération de l'URL")
                    else
                      respond 200 (UploadedJson url filePath)
                | None =>
                    respond 500
                      (ErrorJson "Erreur lors de la récupération de l'URL")
                end
            end
        end
  end.

(** [await assertApiAdmin(req, res)]: when the helper rejects the caller it
    has answered the request itself, and throws. *)
Definition awaitAssertApiAdmin (env : Env) (req : Request) : Handler unit :=
  match assertApiAdmin env req with
  | Granted => mret tt
  | Rejected answer =>
      fun w => (inl (JsError "Unauthorized"),
                {| sent := sent w ++ answer;
                   headers := headers w;
                   stored := stored w;
                   console := console w |})
  end.

(** [handler(req, res)]. *)
Definition handler (env : Env) (req : Request) : Handler unit :=
  fun w =>
    match awaitAssertApiAdmin env req w with
    | (inl _, w') => (inr tt, w')                       (* [catch { return; }] *)
    | (inr _, w') =>
        (if negb (bool_decide (method req = Some "POST")) then
           _ ← setHeader "Allow" "POST";
           respond 405 (ErrorJson "Méthode non autorisée")
         else
           tryCatch (uploadImage env req)
             (fun error =>
                _ ← consoleError "Error in upload handler:";
                respond 500
                  (ErrorJson match error with
                             | JsError message => message
                             | JsThrown => "Erreur inconnue lors de l'upload"
                             end))) w'
    end.

(** *** The specification of the endpoint, in its own words *)

(** The characters of a storage key after its prefix: [[a-zA-Z0-9.-_]]. *)
Definition isKeyChar (c : ascii) : bool := isKept c || Ascii.eqb c "_".

Definition hasNoDot (s : string) : Prop :=
  "."%char ∉ list_ascii_of_string s.

(** The fixed table, with its default. *)
Definition mimeOfExtension (extension : string) : string :=
  if String.eqb extension "jpg" then "image/jpeg"
  else if String.eqb extension "jpeg" then "image/jpeg"
  else if String.eqb extension "png" then "image/png"
  else if String.eqb extension "gif" then "image/gif"
  else if String.eqb extension "webp" then "image/webp"
  else if String.eqb extension "svg" then "image/svg+xml"
  else "image/jpeg".

(** The storage call the handler makes for a file and a file name. *)
Definition callFor (env : Env) (file fileName : string) : StorageCall :=
  {| bucket := "Images";
     key := filePathOf (dateNow env) fileName;
     payload := BufferFromBase64 (stripDataUri file);
     contentType := contentTypeOf fileName;
     upsert := false |}.

(** The exceptions the second [try] can catch, with the storage calls made
    before them. *)
Inductive Throws (env : Env) (req : Request)
  : Exception -> list StorageCall -> Prop :=
| ThrowsNoBody :
    body req = NoBody ->
    Throws env req (JsError "Cannot destructure property 'file' of 'req.body'") []
| ThrowsFileNotString file fileName :
    body req = Fields file fileName ->
    truthy file = true -> truthy fileName = true ->
    (forall s, file <> JString s) ->
    Throws env req (JsError "file.replace is not a function") []
| ThrowsFileNameNotString file fileName :
    body req = Fields (JString file) fileName ->
    file <> "" -> truthy fileName = true ->
    (forall s, fileName <> JString s) ->
    Throws env req (JsError "fileName.replace is not a function") []
| ThrowsUpload file fileName e :
    body req = Fields (JString file) (JString fileName) ->
    file <> "" -> fileName <> "" ->
    storageUpload env (callFor env file fileName) = UploadThrew e ->
    Throws env req e [callFor env file fileName]
| ThrowsUrl file fileName e :
    body req = Fields (JString file) (JString fileName) ->
    file <> "" -> fileName <> "" ->
    storageUpload env (callFor env file fileName) = Uploaded ->
    getPublicUrl env (key (callFor env file fileName)) = UrlThrew e ->
    Throws env req e [callFor env file fileName].

(** The response of the endpoint to an administrator, case by case, with
    the storage calls made. *)
Inductive Answers (env : Env) (req : Request)
  : HttpResponse -> list StorageCall -> Prop :=
| MethodNotAllowed :
    method req <> Some "POST" ->
    Answers env req
      {| status := 405; json := ErrorJson "Méthode non autorisée" |} []
| MissingField file fileName :
    method req = Some "POST" ->
    body req = Fields file fileName ->
    truthy file = false \/ truthy fileName = false ->
    Answers env req
      {| status := 400; json := ErrorJson "Fichier et nom de fichier requis" |} []
| Success file fileName url :
    method req = Some "POST" ->
    body req = Fields (JString file) (JString fileName) ->
    file <> "" -> fileName <> "" ->
    storageUpload env (callFor env file fileName) = Uploaded ->
    getPublicUrl env (key (callFor env file fileName)) = UrlData (Some url) ->
    url <> "" ->
    Answers env req
      {| status := 200;
         json := UploadedJson url (filePathOf (dateNow env) fileName) |}
      [callFor env file fileName]
| UploadFailure file fileName message :
    method req = Some "POST" ->
    body req = Fields (JString file) (JString fileName) ->
    file <> "" -> fileName <> "" ->
    storageUpload env (callFor env file fileName) = UploadFailed message ->
    Answers env req
      {| status := 500;
         json := ErrorJson ("Erreur lors de l'upload: " +:+ message) |}
      [callFor env file fileName]
| UrlFailure file fileName publicUrl :
    method req = Some "POST" ->
    body req = Fields (JString file) (JString fileName) ->
    file <> "" -> fileName <> "" ->
    storageUpload env (callFor env file fileName) = Uploaded ->
    getPublicUrl env (key (callFor env file fileName)) = UrlData publicUrl ->
    publicUrl = None \/ publicUrl = Some "" ->
    Answers env req
      {| status := 500;
         json := ErrorJson "Erreur lors de la récupération de l'URL" |}
      [callFor env file fileName]
| UnexpectedException e calls :
    method req = Some "POST" ->
    Throws env req e calls ->
    Answers env req
      {| status := 500;
         json := ErrorJson match e with
                           | JsError message => message
                           | JsThrown => "Erreur inconnue lors de l'upload"
                           end |}
      calls.

End Upload.

(* ------------------------------------------------------------------------- *)
(** ** Concrete inputs, for the examples *)
(* ------------------------------------------------------------------------- *)

Module Examples.
Import Calendar Dashboard.

(** A host whose sessions and redirects are names, whose timestamps are
    written as decimal time values, and whose formatters print integers. *)
Definition host : Host :=
  {| Session := string;
     Redirect := string;
     parseISO := fun s => Z.of_int <$> NilZero.int_of_string s;
     newDate := fun s => Z.of_int <$> NilZero.int_of_string s;
     formatDay := fun d => NilZero.string_of_int (Z.to_int (Day d));
     numberFormatter := fun n => NilZero.string_of_int (Z.to_int n);
     percentFormatter := fun q => NilZero.string_of_int (Z.to_int (Qfloor q)) |}.

(** Noon on 15 March 2024. *)
Definition noon : Date := civil 2024 3 15 12 0.

(** A backend none of whose queries succeeds. *)
Definition backendDown : Backend :=
  {| select := fun _ => failure "unreachable";
     selectMessages := {| m_data := None; m_error := Some "unreachable" |} |}.

(** A backend with 40 profiles, 10 of them created in any window asked
    for, 8 consent records of which 2 opted in to anything, and one profile
    row created at noon. *)
Definition backendUp : Backend :=
  {| select := fun q =>
       if head_only q then
         if String.eqb (table q) "consent" then
           match eq_true q with Some _ => counted 2 | None => counted 8 end
         else
           match gte_created_at q with Some _ => counted 10 | None => counted 40 end
       else rows [{| created_at := "1710504000000" |}];
     selectMessages := {| m_data := Some []; m_error := None |} |}.

End Examples.

(* ------------------------------------------------------------------------- *)
(** ** The component of the dashboard page *)
(* ------------------------------------------------------------------------- *)

Module Home.
Import Calendar Dashboard.

Local Open Scope string_scope.

(** The [PERIODS] of the segmented control: value and label. *)
Definition PERIODS : list (string * string) :=
  [ ("7d", "7j"); ("30d", "30j"); ("month", "Mois"); ("last_month", "M-1") ].

(** [Date.UTC(year, month, date)]: a year from 0 to 99 stands for 1900 plus
    that year. *)
Definition DateUTC (year month date : Z) : Date :=
  let year := if (0 <=? year)%Z && (year <=? 99)%Z then (1900 + year)%Z
              else year in
  MakeDate (MakeDay year month date) 0.

(** [startOfUtcDay(date)], on the UTC time value of [date]:
    [new Date(Date.UTC(date.getUTCFullYear(), date.getUTCMonth(),
    date.getUTCDate()))]. *)
Definition startOfUtcDay (date : Date) : Date :=
  DateUTC (YearFromDay (Day date)) (MonthFromDay (Day date))
          (DateFromDay (Day date)).

(** [router.query], and the [router] as far as [handlePeriodChange] reads
    it. *)
Record Router := {
  pathname : string;
  query : gmap string QueryValue;
}.

(** The argument of [router.push]. *)
Record PushedUrl := {
  p_pathname : string;
  p_query : gmap string QueryValue;
}.

(** [handlePeriodChange(newPeriod)]:
    [router.push({ pathname: router.pathname,
    query: { ...router.query, period: newPeriod } })]. *)
Definition handlePeriodChange (router : Router) (newPeriod : string)
  : PushedUrl :=
  {| p_pathname := pathname router;
     p_query := <["period" := QString newPeriod]> (query router) |}.

(** [context.query.period] of a request for a query object. *)
Definition queryPeriod (q : gmap string QueryValue) : QueryValue :=
  default QAbsent (q !! "period").

(** A button of the segmented control: its label, its class and the period
    its click handler passes to [handlePeriodChange]. *)
Record PeriodButton := {
  b_label : string;
  b_className : string;
  b_onClick : string;
}.

(** The class of a button:
    [`ms-segmented-control__item ${selectedPeriod === p.value ?
    'ms-segmented-control__item--active' : ''}`]. *)
Definition buttonClass (selectedPeriod : option string) (value : string)
  : string :=
  "ms-segmented-control__item "
  +:+ (if bool_decide (selectedPeriod = Some value)
       then "ms-segmented-control__item--active" else "").

(** [PERIODS.map((p) => <button ...>{p.label}</button>)]. *)
Definition periodButtons (selectedPeriod : option string) : list PeriodButton :=
  (fun p => {| b_label := p.2;
               b_className := buttonClass selectedPeriod p.1;
               b_onClick := p.1 |}) <$> PERIODS.

Definition isActiveButton (b : PeriodButton) : bool :=
  String.eqb (b_className b)
    "ms-segmented-control__item ms-segmented-control__item--active".


Record MessageMetric := { mm_label : string; mm_value : nat }.

(** [messageMetrics]. *)
Definition messageMetrics (stats : MessageStats) : list MessageMetric :=
  [ {| mm_label := "Messages actifs"; mm_value := active stats |};
    {| mm_label := "Messages totaux"; mm_value := total stats |};
    {| mm_label := "Campagnes ciblées"; mm_value := targeted stats |};
    {| mm_label := "Débuts à venir"; mm_value := upcoming stats |} ].

(** The ten count queries of the page with the labels of their
    [getCountOrZero] calls, in the order of the calls. *)
Definition countQueries (r : Ranges) : list (Query * string) :=
  [ (countAll "profiles", "profiles (total)");
    (countBetween "profiles" (startOfPeriod r) (endOfPeriod r),
     "profiles (période)");
    (countBetween "profiles" (startOfPreviousPeriod r) (endOfPreviousPeriod r),
     "profiles (période précédente)");
    (countBetween "analyses" (startOfPeriod r) (endOfPeriod r),
     "analyses (période)");
    (countBetween "analyses" (startOfPreviousPeriod r) (endOfPreviousPeriod r),
     "analyses (période précédente)");
    (countAll "consent", "consent (total)");
    (countWhere "consent" "marketing", "consent (marketing true)");
    (countWhere "consent" "improvement", "consent (improvement true)");
    (countBetween "waitlist" (startOfPeriod r) (endOfPeriod r),
     "waitlist (période)");
    (countBetween "waitlist" (startOfPreviousPeriod r) (endOfPreviousPeriod r),
     "waitlist (période précédente)") ].

(** The line [getCountOrZero] logs for a response: none without an error. *)
Definition errorLine (response : Response) (label : string) : list LogEntry :=
  match error response with
  | Some e =>
      [{| log_message := "Erreur lors du chargement de " +:+ label +:+ ":";
          log_error := e |}]
  | None => []
  end.

(** The line the page logs for the response of the message query. *)
Definition messageErrorLine (response : MessagesResponse) : list LogEntry :=
  match m_error response with
  | Some e =>
      [{| log_message := "Erreur lors du chargement des messages:";
          log_error := e |}]
  | None => []
  end.

Section WithHost.
Context `{Host}.



(** The sign a trend shows for a current and a previous count. *)
Definition signOf (current previous : Z) : TrendVariant * string :=
  match (current ?= previous)%Z with
  | Gt => (positive, "+")
  | Eq => (neutral, "")
  | Lt => (negative, "-")
  end.

(** The trend a card shows for two counts: the absolute percentage when
    there is a previous count, and the absolute delta when there is none. *)
Definition trendOfCounts (current previous : Z) (label : string) : Trend :=
  {| text :=
       (signOf current previous).2
       +:+ (if (previous =? 0)%Z then numberFormatter (Z.abs (current - previous))
            else percentFormatter
                   (Qabs (inject_Z (current - previous) / inject_Z previous * 100))
                 +:+ " %")
       +:+ " " +:+ label;
     variant := (signOf current previous).1 |}.



(** Whether the [created_at] of a row falls on one of the [count] days from
    [first]. *)
Definition inWindow (first count : Z) (row : Row) : bool :=
  match parseISO (created_at row) with
  | Some t => bool_decide (first <= Day t < first + count)%Z
  | None => false
  end.

End WithHost.

End Home.

(* ------------------------------------------------------------------------- *)
(** ** The layout components: Card and AppShell *)
(* ------------------------------------------------------------------------- *)

Module Components.

Local Open Scope string_scope.

(** What a click handler of the shell does: [setMobileMenuOpen(b)]. *)
Inductive Handler := SetMobileMenuOpen (b : bool).

(** A rendered element tree.  [R] is the type of the nodes a caller passes in
    ([children], [actions], ...): they are placed as they are. *)
#[warnings="-register-all"]
Inductive Node (R : Type) :=
| Element (tag : string) (attrs : list (string * string))
          (onClick : option Handler) (children : list (Node R))
| Text (s : string)
| Passed (r : R).

Arguments Element {R} tag attrs onClick children.
Arguments Text {R} s.
Arguments Passed {R} r.

(** A string prop that is absent or empty is falsy. *)
Definition truthyString (s : option string) : bool :=
  match s with
  | Some s => negb (String.eqb s "")
  | None => false
  end.

Definition className (c : string) : string * string := ("className", c).

Section Card.
Context {R : Type}.

(** [Card({ title, description, actions, children, className = '',
    noPadding = false })].  For a node prop such as [actions], [None] stands
    for the values that are falsy and render nothing ([undefined], [null],
    [false], the empty string). *)
Definition Card (title description : option string) (actions : option R)
    (children : list (Node R)) (className_ : option string)
    (noPadding : option bool) : Node R :=
  let className_ := default "" className_ in
  let noPadding := default false noPadding in
  Element "div" [className ("ms-card " +:+ className_)] None
    ((if truthyString title || truthyString description || bool_decide (is_Some actions)
      then
        [Element "div" [className "ms-card__header"] None
           (Element "div" [className "ms-card__header-content"] None
              ((if truthyString title
                then [Element "h3" [className "ms-card__title"] None
                        [Text (default "" title)]]
                else [])
               ++ (if truthyString description
                   then [Element "p" [className "ms-card__description"] None
                           [Text (default "" description)]]
                   else []))
            :: match actions with
               | Some a =>
                   [Element "div" [className "ms-card__actions"] None [Passed a]]
               | None => []
               end)]
      else [])
     ++ [Element "div"
           [className ("ms-card__content "
                       +:+ (if noPadding then "ms-card__content--no-padding"
                            else ""))]
           None children]).

End Card.

(** An [AdminNavItem], as far as the shell reads it. *)
Record NavItem := {
  href : string;
  label : string;
  match_ : option (string -> bool);    (* [match] *)
  external : bool;
}.

Record Breadcrumb := {
  bc_label : string;                  (* [label] *)
  bc_href : option string;            (* [href] *)
}.

Section AppShell.
Context {R : Type}.

Definition MenuIcon : Node R :=
  Element "svg" [("width", "24"); ("height", "24"); ("viewBox", "0 0 24 24");
                 ("fill", "none"); ("xmlns", "http://www.w3.org/2000/svg")] None
    [Element "path" [("d", "M4 6H20M4 12H20M4 18H20"); ("stroke", "currentColor");
                     ("strokeWidth", "2"); ("strokeLinecap", "round");
                     ("strokeLinejoin", "round")] None []].

Definition CloseIcon : Node R :=
  Element "svg" [("width", "24"); ("height", "24"); ("viewBox", "0 0 24 24");
                 ("fill", "none"); ("xmlns", "http://www.w3.org/2000/svg")] None
    [Element "path" [("d", "M6 18L18 6M6 6L18 18"); ("stroke", "currentColor");
                     ("strokeWidth", "2"); ("strokeLinecap", "round");
                     ("strokeLinejoin", "round")] None []].

(** [item.match ? item.match(currentPath) : currentPath === item.href]. *)
Definition isActive (currentPath : string) (item : NavItem) : bool :=
  match match_ item with
  | Some m => m currentPath
  | None => String.eqb currentPath (href item)
  end.

(** The link of one item in [renderNavItems]. *)
Definition navLink (currentPath : string) (item : NavItem) : Node R :=
  let linkProps :=
    if external item
    then [("href", href item); ("target", "_blank");
          ("rel", "noopener noreferrer")]
    else [("href", href item)] in
  Element "Link"
    (("key", href item) :: linkProps
     ++ [className "ms-sidebar__nav-link"]
     ++ (if isActive currentPath item then [("data-active", "true")] else []))
    None
    [Element "span" [] None [Text (label item)]].

(** [renderNavItems(items)]. *)
Definition renderNavItems (currentPath : string) (items : list NavItem)
  : list (Node R) :=
  navLink currentPath <$> items.

(** One breadcrumb of [breadcrumbs.map((breadcrumb, index) => ...)]. *)
Definition breadcrumbSpan (count : nat) (index : nat) (b : Breadcrumb) : Node R :=
  Element "span"
    [("key", bc_label b +:+ "-" +:+ NilZero.string_of_uint (Nat.to_uint index))]
    None
    ((if truthyString (bc_href b)
      then Element "Link" [("href", default "" (bc_href b))] None
             [Text (bc_label b)]
      else Text (bc_label b))
     :: (if bool_decide (index < count - 1)%nat
         then [Element "span" [className "ms-breadcrumbs__separator"] None
                 [Text "/"]]
         else [])).

(** [breadcrumbs && breadcrumbs.length > 0 ? <div className="ms-breadcrumbs">
    ... </div> : null]. *)
Definition renderBreadcrumbs (breadcrumbs : option (list Breadcrumb))
  : list (Node R) :=
  match breadcrumbs with
  | Some (b :: bs) =>
      [Element "div" [className "ms-breadcrumbs"] None
         (imap (breadcrumbSpan (length (b :: bs))) (b :: bs))]
  | _ => []
  end.

(** The props of [AppShell]; [ADMIN_NAV_ITEMS] is the default of
    [navItems]. *)
Record AppShellProps := {
  title : string;
  description : option string;
  actions : option R;
  headerActions : option R;
  navItems : option (list NavItem);
  breadcrumbs : option (list Breadcrumb);
  children : list (Node R);
  brandLabel : option string;
  brandHref : option string;
}.

(** What [AppShell] renders for a current path ([router.asPath]) and a
    state of the mobile menu. *)
Definition AppShell (ADMIN_NAV_ITEMS : list NavItem) (props : AppShellProps)
    (currentPath : string) (mobileMenuOpen : bool) : Node R :=
  let navItems := default ADMIN_NAV_ITEMS (navItems props) in
  let brandLabel := default "My Swing Admin" (brandLabel props) in
  let brandHref := default "/" (brandHref props) in
  Element "div" [className "ms-shell"] None
    ([ Element "aside"
         (className "ms-sidebar"
          :: (if mobileMenuOpen then [("data-open", "true")] else []))
         None
         [ Element "div" [className "ms-sidebar__header"] None
             [ Element "Link" [("href", brandHref);
                               className "ms-sidebar__brand"] None
                 [ Element "div" [className "ms-sidebar__brand-logo"] None
                     [Text "MS"];
                   Element "span" [] None [Text brandLabel] ];
               Element "button" [className "ms-sidebar__close";
                                 ("aria-label", "Fermer le menu")]
                 (Some (SetMobileMenuOpen false))
                 [CloseIcon] ];
           Element "div" [className "ms-sidebar__content"] None
             [ Element "nav" [className "ms-sidebar__nav"] None
                 (renderNavItems currentPath navItems) ];
           Element "div" [className "ms-sidebar__footer"] None
             [ Element "UserMenu" [] None [] ] ];
       Element "main" [className "ms-main"] None
         [ Element "header" [className "ms-header"] None
             [ Element "div" [("style", "display: flex; align-items: center")] None
                 [ Element "button" [className "ms-mobile-toggle";
                                     ("aria-label", "Toggle navigation")]
                     (Some (SetMobileMenuOpen (negb mobileMenuOpen)))
                     [if mobileMenuOpen then CloseIcon else MenuIcon];
                   Element "h1" [className "ms-header__title"] None
                     [Text (title props)] ];
               Element "div" [className "ms-toolbar ms-toolbar--end"] None
                 match headerActions props with
                 | Some a =>
                     [Element "div" [className "ms-toolbar__actions"] None
                        [Passed a]]
                 | None => []
                 end ];
           Element "div" [className "ms-content"] None
             (Element "div" [className "ms-page-header"] None
                (Element "div" [className "ms-page-header__main"] None
                   (renderBreadcrumbs (breadcrumbs props)
                    ++ (if truthyString (description props)
                        then [Element "p"
                                [className "ms-page-header__description"] None
                                [Text (default "" (description props))]]
                        else []))
                 :: match actions props with
                    | Some a =>
                        [Element "div" [className "ms-page-header__actions"]
                           None [Passed a]]
                    | None => []
                    end)
              :: children props) ] ]
     ++ (if mobileMenuOpen
         then [Element "div" [className "ms-mobile-overlay";
                              ("aria-hidden", "true")]
                 (Some (SetMobileMenuOpen false)) []]
         else [])).

(** What happens to the shell: a click on an element that has a handler, or
    a change of [router.asPath] (the effect then runs
    [setMobileMenuOpen(false)]). *)
Inductive ShellEvent :=
| Click (h : Handler)
| RouteChange.

Definition shellStep (mobileMenuOpen : bool) (e : ShellEvent) : bool :=
  match e with
  | Click (SetMobileMenuOpen b) => b
  | RouteChange => false
  end.

End AppShell.

(** The click handlers of a tree, in document order. *)
Fixpoint handlers {R} (n : Node R) : list Handler :=
  match n with
  | Element _ _ onClick children =>
      match onClick with Some h => [h] | None => [] end
      ++ flat_map handlers children
  | _ => []
  end.

(** The elements of a tree with a given class, in document order. *)
Fixpoint withClass {R} (c : string) (n : Node R) : list (Node R) :=
  match n with
  | Element _ attrs _ children =>
      (if bool_decide (className c ∈ attrs) then [n] else [])
      ++ flat_map (withClass c) children
  | _ => []
  end.

(** The nodes passed in by the caller that a tree holds, in document
    order. *)
Fixpoint passedNodes {R} (n : Node R) : list R :=
  match n with
  | Element _ _ _ children => flat_map passedNodes children
  | Text _ => []
  | Passed r => [r]
  end.

(** The attributes of an element. *)
Definition attrsOf {R} (n : Node R) : list (string * string) :=
  match n with
  | Element _ attrs _ _ => attrs
  | _ => []
  end.

(** Whether a navigation link is marked as the current page. *)
Definition markedActive {R} (n : Node R) : bool :=
  bool_decide (("data-active", "true") ∈ attrsOf n).

(** The click handlers of the shell itself, in document order: the close
    button of the sidebar, the toggle of the header and, when the menu is
    open, the overlay. *)
Definition shellHandlers (mobileMenuOpen : bool) : list Handler :=
  [SetMobileMenuOpen false; SetMobileMenuOpen (negb mobileMenuOpen)]
  ++ (if mobileMenuOpen then [SetMobileMenuOpen false] else []).

End Components.

(* ------------------------------------------------------------------------- *)
(** ** The upload endpoint: words of its further properties *)
(* ------------------------------------------------------------------------- *)

Module UploadSpec.
Import Upload.

Local Open Scope string_scope.

(** [file] is the data URI of an image: [data:image/<subtype>;base64,]
    followed by a payload, the subtype being one or more [\w] characters. *)
Definition isImageDataUri (file subtype payload : string) : Prop :=
  file = "data:image/" +:+ subtype +:+ ";base64," +:+ payload
  /\ subtype <> ""
  /\ Forall (fun c => isWord c = true) (list_ascii_of_string subtype).

#[global] Instance ContentType_eq_dec : EqDecision ContentType.
Proof. solve_decision. Defined.

(** The content types the handler can send. *)
Definition contentTypes : list ContentType :=
  [ Mime "image/jpeg"; Mime "image/png"; Mime "image/gif"; Mime "image/webp";
    Mime "image/svg+xml"; ObjectMember "constructor"; ObjectMember "__proto__" ].

(** The headers the handler sets for a request. *)
Definition headersFor (env : Env) (req : Request) : list (string * string) :=
  match assertApiAdmin env req with
  | Granted =>
      if bool_decide (method req = Some "POST") then [] else [("Allow", "POST")]
  | Rejected _ => []
  end.

End UploadSpec.

(* ------------------------------------------------------------------------- *)
(** ** Further concrete inputs *)
(* ------------------------------------------------------------------------- *)

Module Visits.
Import Calendar Dashboard Home Components.

Local Open Scope string_scope.

(** The router of the dashboard opened with [?tab=users]. *)
Definition dashboardRouter : Router :=
  {| pathname := "/"; query := {["tab" := QString "users"]} |}.

(** The [30j] button while [7d] is shown. *)
Definition thirtyDays : PeriodButton :=
  {| b_label := "30j"; b_className := "ms-segmented-control__item ";
     b_onClick := "30d" |}.

(** A message that starts one millisecond after noon on 15 March 2024, and
    one without a start. *)
Definition startingSoon : Message :=
  {| Dashboard.title := Some "Soon"; is_active := Some true;
     start_date := Some "1710504000001"; target_user_ids := None;
     updated_at := None; m_created_at := None |}.

Definition undated : Message :=
  {| Dashboard.title := None; is_active := None; start_date := None;
     target_user_ids := Some ["u1"]; updated_at := None; m_created_at := None |}.

(** A sidebar of three items, the last one external. *)
Definition sidebar : list NavItem :=
  [ {| href := "/"; label := "Dashboard"; match_ := None; external := false |};
    {| href := "/messages"; label := "Messages"; match_ := None;
       external := false |};
    {| href := "https://example.org/docs"; label := "Docs"; match_ := None;
       external := true |} ].

End Visits.

(* ------------------------------------------------------------------------- *)
(** ** Facts about the calendar *)
(* ------------------------------------------------------------------------- *)

Section CalendarFacts.
Import Calendar.

Lemma leapDay_cases y : leapDay y = 0 \/ leapDay y = 1.
Proof. unfold leapDay. destruct (InLeapYear y); auto. Qed.

Lemma DayFromYear_succ y : DayFromYear (y + 1) = DayFromYear y + 365 + leapDay y.
Proof.
  unfold DayFromYear, leapDay, InLeapYear.
  replace (y + 1 - 1970) with (y - 1969) by lia.
  replace (y + 1 - 1969) with (y - 1968) by lia.
  replace (y + 1 - 1901) with (y - 1900) by lia.
  replace (y + 1 - 1601) with (y - 1600) by lia.
  destruct (Z.eqb_spec (y mod 4) 0), (Z.eqb_spec (y mod 100) 0),
    (Z.eqb_spec (y mod 400) 0); cbn [andb orb negb];
    Z.div_mod_to_equations; lia.
Qed.

Lemma DayFromYear_mono y y' : y <= y' -> DayFromYear y <= DayFromYear y'.
Proof. unfold DayFromYear. intros. Z.div_mod_to_equations. lia. Qed.

Lemma YearFromDay_spec d :
  DayFromYear (YearFromDay d) <= d < DayFromYear (YearFromDay d + 1).
Proof.
  unfold YearFromDay.
  destruct (Z.ltb_spec d (DayFromYear (1970 + 400 * d / 146097))).
  - unfold DayFromYear in *. Z.div_mod_to_equations. lia.
  - destruct (Z.leb_spec (DayFromYear (1970 + 400 * d / 146097 + 1)) d).
    + unfold DayFromYear in *. Z.div_mod_to_equations. lia.
    + lia.
Qed.

Lemma YearFromDay_unique d y :
  DayFromYear y <= d < DayFromYear (y + 1) -> YearFromDay d = y.
Proof.
  intros Hy. pose proof (YearFromDay_spec d) as Hs.
  destruct (Z.lt_trichotomy (YearFromDay d) y) as [Hlt | [Heq | Hgt]]; [|done|].
  - pose proof (DayFromYear_mono (YearFromDay d + 1) y). lia.
  - pose proof (DayFromYear_mono (y + 1) (YearFromDay d)). lia.
Qed.

Lemma DayWithinYear_range d :
  0 <= DayWithinYear d < 365 + leapDay (YearFromDay d).
Proof.
  unfold DayWithinYear. pose proof (YearFromDay_spec d).
  rewrite DayFromYear_succ in *. lia.
Qed.

Lemma MonthFromDay_range d : 0 <= MonthFromDay d <= 11.
Proof.
  unfold MonthFromDay.
  repeat match goal with |- context [if ?b then _ else _] => destruct b end; lia.
Qed.

Lemma monthStart_eq y m :
  0 <= m <= 11 -> monthStart (12 * y + m) = DayFromYear y + DayFromMonth m (leapDay y).
Proof.
  intros Hm. unfold monthStart, MakeDay.
  replace ((12 * y + m) / 12) with y by (Z.div_mod_to_equations; lia).
  replace ((12 * y + m) mod 12) with m by (Z.div_mod_to_equations; lia).
  rewrite !Z.add_0_l. lia.
Qed.

Lemma MakeDay_monthStart y m d : MakeDay y m d = monthStart (12 * y + m) + d - 1.
Proof.
  unfold monthStart, MakeDay.
  replace ((12 * y + m) / 12) with (y + m / 12) by (Z.div_mod_to_equations; lia).
  replace ((12 * y + m) mod 12) with (m mod 12) by (Z.div_mod_to_equations; lia).
  rewrite !Z.add_0_l. lia.
Qed.

Lemma monthStart_year_end y : monthStart (12 * y + 11 + 1) = DayFromYear (y + 1).
Proof.
  replace (12 * y + 11 + 1) with (12 * (y + 1) + 0) by lia.
  rewrite monthStart_eq by lia.
  change (DayFromMonth 0 (leapDay (y + 1))) with 0. lia.
Qed.

(** Evaluates the month table at the literal months of the goal. *)
Ltac eval_month_table :=
  repeat match goal with
         | |- context [DayFromMonth (?a + 1) ?l] =>
             let v := eval vm_compute in (a + 1) in change (a + 1) with v
         end;
  lazy beta iota zeta
       delta [DayFromMonth Z.leb Z.eqb Z.compare Pos.compare Pos.compare_cont
              Pos.eqb].

Lemma monthStart_next y m :
  0 <= m <= 11 ->
  monthStart (12 * y + m + 1) =
  DayFromYear y + (if m =? 11 then 365 + leapDay y else DayFromMonth (m + 1) (leapDay y)).
Proof.
  intros Hm. destruct (Z.eqb_spec m 11) as [-> | Hne].
  - rewrite monthStart_year_end, DayFromYear_succ. lia.
  - replace (12 * y + m + 1) with (12 * y + (m + 1)) by lia.
    apply monthStart_eq. lia.
Qed.

(** The table of [MonthFromTime] picks the month whose days contain [w]. *)
Lemma MonthFromDay_table (w l : Z) :
  0 <= w < 365 + l -> l = 0 \/ l = 1 ->
  let m := if w <? 31 then 0
           else if w <? 59 + l then 1
           else if w <? 90 + l then 2
           else if w <? 120 + l then 3
           else if w <? 151 + l then 4
           else if w <? 181 + l then 5
           else if w <? 212 + l then 6
           else if w <? 243 + l then 7
           else if w <? 273 + l then 8
           else if w <? 304 + l then 9
           else if w <? 334 + l then 10
           else 11 in
  0 <= m <= 11 /\
  DayFromMonth m l <= w < (if m =? 11 then 365 + l else DayFromMonth (m + 1) l).
Proof.
  intros Hw Hl m. subst m.
  repeat match goal with
         | |- context [if ?a <? ?b then _ else _] => destruct (Z.ltb_spec a b)
         end; eval_month_table; lia.
Qed.

(** The month of a day starts on or before it, and the next one after it. *)
Lemma monthStart_monthIndex d :
  monthStart (monthIndex d) <= d < monthStart (monthIndex d + 1).
Proof.
  pose proof (MonthFromDay_table _ _ (DayWithinYear_range d)
                (leapDay_cases (YearFromDay d))) as [Hm Ht].
  fold (MonthFromDay d) in Hm, Ht.
  unfold monthIndex.
  rewrite monthStart_next, monthStart_eq by exact Hm.
  unfold DayWithinYear in Ht. lia.
Qed.

Lemma monthStart_lt k : monthStart k < monthStart (k + 1).
Proof.
  assert (Hk : k = 12 * (k / 12) + k mod 12) by (Z.div_mod_to_equations; lia).
  assert (Hm : 0 <= k mod 12 <= 11) by (Z.div_mod_to_equations; lia).
  rewrite Hk at 2. rewrite monthStart_next by exact Hm.
  rewrite Hk at 1. rewrite monthStart_eq by exact Hm.
  pose proof (leapDay_cases (k / 12)) as Hl.
  set (m := k mod 12) in *. set (l := leapDay (k / 12)) in *.
  assert (Hc : m = 0 \/ m = 1 \/ m = 2 \/ m = 3 \/ m = 4 \/ m = 5 \/ m = 6 \/
               m = 7 \/ m = 8 \/ m = 9 \/ m = 10 \/ m = 11) by lia.
  clearbody m l. clear Hk.
  repeat (destruct Hc as [-> | Hc]); [..| subst m]; eval_month_table; lia.
Qed.

Lemma monthStart_mono k k' : k <= k' -> monthStart k <= monthStart k'.
Proof.
  intros Hk. replace k' with (k + Z.of_nat (Z.to_nat (k' - k))) by lia.
  induction (Z.to_nat (k' - k)) as [| n IH].
  - rewrite Z.add_0_r. lia.
  - pose proof (monthStart_lt (k + Z.of_nat n)).
    replace (k + Z.of_nat (S n)) with (k + Z.of_nat n + 1) by lia. lia.
Qed.

Lemma monthIndex_unique d k :
  monthStart k <= d < monthStart (k + 1) -> monthIndex d = k.
Proof.
  intros Hk. pose proof (monthStart_monthIndex d) as Hs.
  destruct (Z.lt_trichotomy (monthIndex d) k) as [Hlt | [Heq | Hgt]]; [|done|].
  - pose proof (monthStart_mono (monthIndex d + 1) k). lia.
  - pose proof (monthStart_mono (k + 1) (monthIndex d)). lia.
Qed.

(** Year, month and date of a day give the day back. *)
Lemma MakeDay_getters d :
  MakeDay (YearFromDay d) (MonthFromDay d) (DateFromDay d) = d.
Proof.
  rewrite MakeDay_monthStart.
  pose proof (MonthFromDay_range d) as Hm.
  rewrite monthStart_eq by exact Hm.
  unfold DateFromDay, DayWithinYear. lia.
Qed.

Lemma DateFromDay_monthStart d : DateFromDay d = d - monthStart (monthIndex d) + 1.
Proof.
  unfold monthIndex. rewrite monthStart_eq by apply MonthFromDay_range.
  unfold DateFromDay, DayWithinYear. lia.
Qed.

Lemma Day_MakeDate day time : 0 <= time < msPerDay -> Day (MakeDate day time) = day.
Proof.
  unfold Day, MakeDate, msPerDay. intros. Z.div_mod_to_equations. lia.
Qed.

Lemma TimeWithinDay_MakeDate day time :
  0 <= time < msPerDay -> TimeWithinDay (MakeDate day time) = time.
Proof.
  unfold TimeWithinDay, MakeDate, msPerDay. intros. Z.div_mod_to_equations. lia.
Qed.

Lemma TimeWithinDay_range t : 0 <= TimeWithinDay t < msPerDay.
Proof. unfold TimeWithinDay, msPerDay. Z.div_mod_to_equations. lia. Qed.

Lemma MakeDate_Day t : MakeDate (Day t) (TimeWithinDay t) = t.
Proof.
  unfold MakeDate, Day, TimeWithinDay, msPerDay. Z.div_mod_to_equations. lia.
Qed.

(** [addDays] moves an instant by whole days. *)
Lemma addDays_eq t amount : addDays t amount = t + amount * msPerDay.
Proof.
  unfold addDays, getFullYear, getMonth, getDate.
  rewrite MakeDay_monthStart.
  fold (monthIndex (Day t)). rewrite DateFromDay_monthStart.
  pose proof (MakeDate_Day t) as Ht. unfold MakeDate, msPerDay in *. lia.
Qed.

Lemma subDays_eq t amount : subDays t amount = t - amount * msPerDay.
Proof. unfold subDays. rewrite addDays_eq. lia. Qed.

Lemma Day_addDays t amount : Day (addDays t amount) = Day t + amount.
Proof.
  rewrite addDays_eq. unfold Day, msPerDay. Z.div_mod_to_equations. lia.
Qed.

Lemma Day_subDays t amount : Day (subDays t amount) = Day t - amount.
Proof. unfold subDays. rewrite Day_addDays. lia. Qed.

Lemma startOfMonth_eq t :
  startOfMonth t = MakeDate (monthStart (monthIndex (Day t))) 0.
Proof.
  unfold startOfMonth, getFullYear, getMonth. rewrite MakeDay_monthStart.
  fold (monthIndex (Day t)). f_equal. lia.
Qed.

Lemma endOfMonth_eq t :
  endOfMonth t = MakeDate (monthStart (monthIndex (Day t) + 1) - 1) (msPerDay - 1).
Proof.
  unfold endOfMonth, getFullYear, getMonth. rewrite MakeDay_monthStart.
  rewrite Z.add_assoc. fold (monthIndex (Day t)). f_equal. lia.
Qed.

Lemma MakeDay_of_day d date :
  MakeDay (YearFromDay d) (MonthFromDay d) date = monthStart (monthIndex d) + date - 1.
Proof. apply MakeDay_monthStart. Qed.

(** [addMonths] lands in the month [amount] months away. *)
Lemma monthIndex_addMonths t amount :
  monthIndex (Day (addMonths t amount)) = monthIndex (Day t) + amount.
Proof.
  pose proof (TimeWithinDay_range t) as Ht.
  pose proof (monthStart_monthIndex (Day t)) as Hd.
  pose proof (DateFromDay_monthStart (Day t)) as Hdate.
  assert (Hend : MakeDay (getFullYear t) (getMonth t + amount + 1) 0
                 = monthStart (monthIndex (Day t) + amount + 1) - 1).
  { unfold getFullYear, getMonth. rewrite MakeDay_monthStart.
    unfold monthIndex. rewrite !Z.add_assoc. lia. }
  unfold addMonths. rewrite Hend. clear Hend.
  unfold getDate, getFullYear, getMonth.
  generalize dependent (monthIndex (Day t)). intros k Hd Hdate.
  generalize dependent (DateFromDay (Day t)). intros date Hdate.
  generalize dependent (TimeWithinDay t). intros time Ht.
  pose proof (monthStart_lt (k + amount)) as Hlt.
  assert (Hidx : monthIndex (monthStart (k + amount + 1) - 1) = k + amount).
  { apply monthIndex_unique. lia. }
  pose proof (DateFromDay_monthStart (monthStart (k + amount + 1) - 1)) as He.
  rewrite Hidx in He.
  rewrite !Day_MakeDate by exact Ht.
  remember (monthStart (k + amount + 1) - 1) as e eqn:Ee.
  destruct (Z.leb_spec (DateFromDay e) date) as [Hle | Hgt].
  - rewrite Day_MakeDate by exact Ht. exact Hidx.
  - rewrite Day_MakeDate by exact Ht.
    rewrite MakeDay_of_day, Hidx.
    apply monthIndex_unique. lia.
Qed.

Lemma monthIndex_subMonths t amount :
  monthIndex (Day (subMonths t amount)) = monthIndex (Day t) - amount.
Proof. unfold subMonths. rewrite monthIndex_addMonths. lia. Qed.

End CalendarFacts.

(* ------------------------------------------------------------------------- *)
(** ** Facts about the dashboard page *)
(* ------------------------------------------------------------------------- *)

Section WindowFacts.
Import Calendar Dashboard.

Lemma startOfDay_eq t : startOfDay t = Day t * msPerDay.
Proof. unfold startOfDay, MakeDate. lia. Qed.

Lemma endOfDay_eq t : endOfDay t = Day t * msPerDay + (msPerDay - 1).
Proof. reflexivity. Qed.

Lemma Day_startOfDay t : Day (startOfDay t) = Day t.
Proof. unfold startOfDay. apply Day_MakeDate. unfold msPerDay. lia. Qed.

Lemma Day_endOfDay t : Day (endOfDay t) = Day t.
Proof. unfold endOfDay. apply Day_MakeDate. unfold msPerDay. lia. Qed.

Lemma Day_startOfMonth t : Day (startOfMonth t) = monthStart (monthIndex (Day t)).
Proof. rewrite startOfMonth_eq. apply Day_MakeDate. unfold msPerDay. lia. Qed.

Lemma Day_endOfMonth t : Day (endOfMonth t) = monthStart (monthIndex (Day t) + 1) - 1.
Proof. rewrite endOfMonth_eq. apply Day_MakeDate. unfold msPerDay. lia. Qed.

Lemma Day_le t t' : t <= t' -> Day t <= Day t'.
Proof. unfold Day, msPerDay. intros. Z.div_mod_to_equations. lia. Qed.

Lemma startOfMonth_le t : startOfMonth t <= t.
Proof.
  rewrite startOfMonth_eq. pose proof (monthStart_monthIndex (Day t)) as Hm.
  pose proof (MakeDate_Day t) as Ht. pose proof (TimeWithinDay_range t).
  unfold MakeDate, msPerDay in *. lia.
Qed.

Lemma startOfMonth_le_endOfMonth t : startOfMonth t <= endOfMonth t.
Proof.
  rewrite startOfMonth_eq, endOfMonth_eq.
  pose proof (monthStart_lt (monthIndex (Day t))).
  unfold MakeDate, msPerDay. lia.
Qed.

(** The period switch never assigns a start after its end. *)
Lemma periodRanges_ordered period now :
  startDate (periodRanges period now) <= endDate (periodRanges period now).
Proof.
  unfold periodRanges.
  destruct (String.eqb period "30d"); [| destruct (String.eqb period "month");
    [| destruct (String.eqb period "last_month")]]; cbn [startDate endDate].
  - rewrite subDays_eq. unfold msPerDay. lia.
  - apply startOfMonth_le.
  - apply startOfMonth_le_endOfMonth.
  - rewrite subDays_eq. unfold msPerDay. lia.
Qed.

Lemma eachDayLoop_days fuel d endTime :
  (Z.to_nat (Day endTime - d + 1) < fuel)%nat ->
  eachDayLoop fuel (MakeDate d 0) endTime
  = (fun day => MakeDate day 0) <$> seqZ d (Day endTime - d + 1).
Proof.
  revert d. induction fuel as [| fuel IH]; intros d Hfuel; [lia|].
  cbn [eachDayLoop].
  assert (Hcond : MakeDate d 0 <= endTime <-> d <= Day endTime).
  { unfold MakeDate, Day, msPerDay. Z.div_mod_to_equations. lia. }
  destruct (Z.leb_spec (MakeDate d 0) endTime) as [Hle | Hgt].
  - rewrite seqZ_cons by lia. cbn [fmap list_fmap]. f_equal.
    replace (startOfDay (addDays (MakeDate d 0) 1)) with (MakeDate (Z.succ d) 0).
    + rewrite IH by lia. f_equal. f_equal; lia.
    + unfold startOfDay. rewrite Day_addDays, Day_MakeDate by (unfold msPerDay; lia).
      f_equal; lia.
  - rewrite seqZ_nil by lia. reflexivity.
Qed.

(** [eachDayOfInterval] returns the start of each calendar day from the day
    of [start] to the day of [end_], in order. *)
Lemma eachDayOfInterval_days start end_ :
  start <= end_ ->
  eachDayOfInterval start end_
  = Some ((fun day => MakeDate day 0) <$> seqZ (Day start) (windowDays start end_)).
Proof.
  intros Hle. unfold eachDayOfInterval, windowDays.
  destruct (Z.ltb_spec end_ start); [lia|].
  unfold startOfDay. rewrite eachDayLoop_days by lia. reflexivity.
Qed.

End WindowFacts.

Section PeriodWindows.
Import Calendar Dashboard.

Lemma monthIndex_monthStart k : monthIndex (monthStart k) = k.
Proof. apply monthIndex_unique. pose proof (monthStart_lt k). lia. Qed.

(** The rolling windows: [days] days up to today, and the [days] days
    before them. *)
Lemma rolling_window now days :
  0 < days ->
  let r := {| startDate := subDays now (days - 1);
              endDate := now;
              previousStartDate := subDays (subDays now (days - 1)) days;
              previousEndDate := subDays now days |} in
  precedesWithEqualLength r
  /\ windowDays (startOfPeriod r) (endOfPeriod r) = days.
Proof.
  intros Hdays r. unfold precedesWithEqualLength, windowDays.
  unfold startOfPeriod, endOfPeriod, startOfPreviousPeriod, endOfPreviousPeriod.
  subst r. cbn [startDate endDate previousStartDate previousEndDate].
  rewrite !Day_startOfDay, !Day_endOfDay.
  unfold startOfDay, endOfDay. rewrite !Day_subDays.
  unfold MakeDate, msPerDay. lia.
Qed.

(** The calendar windows: the comparison window is the whole month before
    the month [k] the current window starts in. *)
Lemma calendar_window (current before endDate : Date) :
  monthIndex (Day before) = monthIndex (Day current) - 1 ->
  let r := {| startDate := startOfMonth current;
              endDate := endDate;
              previousStartDate := startOfMonth before;
              previousEndDate := endOfMonth before |} in
  let k := monthIndex (Day (startOfPeriod r)) in
  endOfPreviousPeriod r + 1 = startOfPeriod r
  /\ startOfPeriod r = MakeDate (monthStart k) 0
  /\ startOfPreviousPeriod r = MakeDate (monthStart (k - 1)) 0
  /\ windowDays (startOfPreviousPeriod r) (endOfPreviousPeriod r)
     = monthStart k - monthStart (k - 1).
Proof.
  intros Hbefore r k.
  assert (Hms : 0 <= 0 < msPerDay /\ 0 <= msPerDay - 1 < msPerDay)
    by (unfold msPerDay; lia).
  destruct Hms as [Hms0 Hms1].
  assert (Hs : startOfPeriod r = MakeDate (monthStart (monthIndex (Day current))) 0).
  { unfold startOfPeriod, startOfDay. subst r. cbn [startDate].
    rewrite Day_startOfMonth. reflexivity. }
  assert (Hk : k = monthIndex (Day current)).
  { subst k. rewrite Hs, Day_MakeDate by assumption. apply monthIndex_monthStart. }
  assert (Hps : startOfPreviousPeriod r = MakeDate (monthStart (k - 1)) 0).
  { unfold startOfPreviousPeriod, startOfDay. subst r. cbn [previousStartDate].
    rewrite Day_startOfMonth, Hbefore, Hk. reflexivity. }
  assert (Hpe : endOfPreviousPeriod r = MakeDate (monthStart k - 1) (msPerDay - 1)).
  { unfold endOfPreviousPeriod, endOfDay. subst r. cbn [previousEndDate].
    rewrite Day_endOfMonth, Hbefore, Hk, Z.sub_add. reflexivity. }
  unfold windowDays. rewrite Hps, Hpe, !Day_MakeDate by assumption.
  rewrite Hs, <- Hk. repeat split; try done; unfold MakeDate, msPerDay; lia.
Qed.

(** C1, as the page computes it.  In every period the comparison window ends
    on the last millisecond before the current window begins.  For [7d],
    [30d] and any other selector (treated as [7d]) it has the length of the
    current window: 7 or 30 calendar days.  For [month] and [last_month] it
    is the whole calendar month before the month the current window starts
    in, whatever the length of the current window. *)
Theorem comparison_window_by_period (period : string) (now : Date) :
  let r := periodRanges period now in
  endOfPreviousPeriod r + 1 = startOfPeriod r /\
  if String.eqb period "month" || String.eqb period "last_month" then
    let k := monthIndex (Day (startOfPeriod r)) in
    startOfPeriod r = MakeDate (monthStart k) 0
    /\ startOfPreviousPeriod r = MakeDate (monthStart (k - 1)) 0
    /\ windowDays (startOfPreviousPeriod r) (endOfPreviousPeriod r)
       = monthStart k - monthStart (k - 1)
  else
    precedesWithEqualLength r
    /\ windowDays (startOfPeriod r) (endOfPeriod r)
       = if String.eqb period "30d" then 30 else 7.
Proof.
  unfold periodRanges.
  destruct (String.eqb_spec period "30d") as [-> | H30].
  { cbn [String.eqb Ascii.eqb Bool.eqb orb].
    destruct (rolling_window now 30 ltac:(lia)) as [Hp Hd].
    change (30 - 1) with 29 in Hp, Hd. split; [apply Hp | split; [exact Hp | exact Hd]]. }
  destruct (String.eqb_spec period "month") as [-> | Hm].
  { cbn [orb]. apply calendar_window. rewrite monthIndex_subMonths. reflexivity. }
  destruct (String.eqb_spec period "last_month") as [-> | Hl].
  { cbn [orb]. apply calendar_window. rewrite !monthIndex_subMonths. lia. }
  cbn [orb].
  destruct (rolling_window now 7 ltac:(lia)) as [Hp Hd].
  change (7 - 1) with 6 in Hp, Hd. split; [apply Hp | split; [exact Hp | exact Hd]].
Qed.

(** C1 as stated fails for the two calendar periods.  On 15 March 2024 at
    noon, [month] compares the 15 days of March so far with the 29 days of
    February, and [last_month] compares the 29 days of February with the 31
    days of January. *)
Lemma calendar_periods_compare_unequal_windows :
  let now := civil 2024 3 15 12 0 in
  let month := periodRanges "month" now in
  let last_month := periodRanges "last_month" now in
  windowDays (startOfPeriod month) (endOfPeriod month) = 15
  /\ windowDays (startOfPreviousPeriod month) (endOfPreviousPeriod month) = 29
  /\ windowDays (startOfPeriod last_month) (endOfPeriod last_month) = 29
  /\ windowDays (startOfPreviousPeriod last_month) (endOfPreviousPeriod last_month) = 31
  /\ ~ precedesWithEqualLength month
  /\ ~ precedesWithEqualLength last_month.
Proof.
  repeat split; try (vm_compute; reflexivity);
    intros [Hlen _]; vm_compute in Hlen; discriminate.
Qed.

End PeriodWindows.

Section PageRun.
Import Calendar Dashboard.
Context `{Host}.

Lemma appends_ret {A} (a : A) : appends (mret a).
Proof. intros log. cbn. by rewrite app_nil_r. Qed.

Lemma appends_console_error msg err : appends (console_error msg err).
Proof. intros log. reflexivity. Qed.

Lemma appends_bind {A B} (m : Console A) (f : A -> Console B) :
  appends m -> (forall a, appends (f a)) -> appends (m ≫= f).
Proof.
  intros Hm Hf log. unfold mbind, Console_bind.
  rewrite (Hm log). destruct (m []) as [a l] eqn:Em. cbn [fst snd].
  rewrite (Hf a (log ++ l)), (Hf a l). cbn [fst snd].
  by rewrite app_assoc.
Qed.

Lemma bind_value {A B} (m : Console A) (f : A -> Console B) log :
  (forall a, appends (f a)) ->
  ((m ≫= f) log).1 = (f (m log).1 []).1.
Proof.
  intros Hf. unfold mbind, Console_bind.
  destruct (m log) as [a l]. cbn [fst]. by rewrite (Hf a l).
Qed.

Lemma appends_getCountOrZero response label :
  appends (getCountOrZero response label).
Proof.
  unfold getCountOrZero. destruct (error response).
  - apply appends_bind; [apply appends_console_error | intros; apply appends_ret].
  - apply appends_ret.
Qed.

Lemma getCountOrZero_value response label log :
  (getCountOrZero response label log).1 = countOf response.
Proof. unfold countOf, getCountOrZero. by destruct (error response). Qed.

Lemma getCountOrZero_run response label log :
  getCountOrZero response label log
  = (countOf response, log ++ countLog response label).
Proof.
  rewrite (appends_getCountOrZero response label log).
  by rewrite getCountOrZero_value.
Qed.

Lemma countOf_cases response :
  countOf response
  = match error response, count response with
    | None, Some c => Z.of_N c
    | _, _ => 0
    end.
Proof. unfold countOf, getCountOrZero. by destruct (error response), (count response). Qed.

Lemma countOf_nonneg response : 0 <= countOf response.
Proof. rewrite countOf_cases. destruct (error response), (count response); lia. Qed.

Ltac appends_step :=
  first [ apply appends_ret
        | apply appends_getCountOrZero
        | apply appends_console_error
        | apply appends_bind; [| intros ?] ].

Lemma appends_readCounts backend r : appends (readCounts backend r).
Proof. unfold readCounts. repeat appends_step. Qed.

(** The counts the page works with: each is the value of its
    [getCountOrZero] call. *)
Lemma readCounts_value backend r log :
  (readCounts backend r log).1
  = {| totalUsersCount := countOf (select backend (countAll "profiles"));
       periodUsersCount :=
         countOf (select backend
                    (countBetween "profiles" (startOfPeriod r) (endOfPeriod r)));
       previousPeriodUsersCount :=
         countOf (select backend
                    (countBetween "profiles" (startOfPreviousPeriod r)
                                  (endOfPreviousPeriod r)));
       periodAnalysesCount :=
         countOf (select backend
                    (countBetween "analyses" (startOfPeriod r) (endOfPeriod r)));
       previousPeriodAnalysesCount :=
         countOf (select backend
                    (countBetween "analyses" (startOfPreviousPeriod r)
                                  (endOfPreviousPeriod r)));
       consentTotalCount := countOf (select backend (countAll "consent"));
       marketingOptInCount :=
         countOf (select backend (countWhere "consent" "marketing"));
       improvementOptInCount :=
         countOf (select backend (countWhere "consent" "improvement"));
       waitlistPeriodCount :=
         countOf (select backend
                    (countBetween "waitlist" (startOfPeriod r) (endOfPeriod r)));
       waitlistPreviousPeriodCount :=
         countOf (select backend
                    (countBetween "waitlist" (startOfPreviousPeriod r)
                                  (endOfPreviousPeriod r))) |}.
Proof.
  unfold readCounts.
  do 10 (rewrite bind_value by (intros ?; repeat appends_step);
         rewrite getCountOrZero_value).
  reflexivity.
Qed.

(** What [getServerSideProps] returns to an administrator, and what it
    logs. *)
Lemma getServerSideProps_run session period now nowForMessages backend log :
  let p := selectPeriod period in
  let r := periodRanges p now in
  let dm := buildMetrics backend r now (readCounts backend r []).1 (seriesDays r) in
  getServerSideProps (HasSession session) period now nowForMessages backend log
  = match m_error (selectMessages backend) with
    | Some e =>
        (Props {| initialSession := session;
                  messageStats := baseStats now;
                  dashboardMetrics := dm;
                  selectedPeriod := None |},
         log ++ (readCounts backend r []).2
             ++ [{| log_message := "Erreur lors du chargement des messages:";
                    log_error := e |}])
    | None =>
        (Props {| initialSession := session;
                  messageStats :=
                    messageStatsOf (default [] (m_data (selectMessages backend)))
                                   now nowForMessages;
                  dashboardMetrics := dm;
                  selectedPeriod := Some p |},
         log ++ (readCounts backend r []).2)
    end.
Proof.
  intros p r dm. unfold getServerSideProps. fold p. fold r.
  unfold mbind at 1. unfold Console_bind at 1.
  rewrite (appends_readCounts backend r log).
  pose proof (eachDayOfInterval_days _ _ (periodRanges_ordered p now)) as Hdays.
  fold r in Hdays. rewrite Hdays. fold (seriesDays r). fold dm.
  destruct (m_error (selectMessages backend)) as [e |]; [| reflexivity].
  unfold mbind, Console_bind, console_error, mret, Console_ret.
  by rewrite <- app_assoc.
Qed.

End PageRun.

Section MetricFacts.
Import Calendar Dashboard.
Context `{Host}.





End MetricFacts.

Section BestEffort.
Import Calendar Dashboard.
Context `{Host}.

(** The page reads a response through its count and its rows only. *)
Lemma getServerSideProps_ext adminSession period now nowForMessages b1 b2 log :
  (forall q, countOf (select b1 q) = countOf (select b2 q)
             /\ data (select b1 q) = data (select b2 q)) ->
  selectMessages b1 = selectMessages b2 ->
  (getServerSideProps adminSession period now nowForMessages b1 log).1
  = (getServerSideProps adminSession period now nowForMessages b2 log).1.
Proof.
  intros Hsel Hmsg. destruct adminSession as [session | result]; [| reflexivity].
  rewrite !getServerSideProps_run. rewrite <- Hmsg.
  set (r := periodRanges (selectPeriod period) now).
  assert (Hdm : buildMetrics b1 r now (readCounts b1 r []).1 (seriesDays r)
                = buildMetrics b2 r now (readCounts b2 r []).1 (seriesDays r)).
  { rewrite !readCounts_value. unfold buildMetrics, chartSeries.
    repeat match goal with
           | |- context [countOf (select b1 ?q)] =>
               rewrite (proj1 (Hsel q))
           | |- context [data (select b1 ?q)] =>
               rewrite (proj2 (Hsel q))
           end.
    reflexivity. }
  rewrite Hdm. by destruct (m_error (selectMessages b1)).
Qed.

Lemma answering_same backend q e d c q' :
  let failed := {| error := Some e; data := d; count := c |} in
  let zero := {| error := None; data := d; count := Some 0%N |} in
  countOf (select (answering backend q failed) q')
  = countOf (select (answering backend q zero) q')
  /\ data (select (answering backend q failed) q')
     = data (select (answering backend q zero) q').
Proof. cbn. by destruct (decide (q' = q)). Qed.

Lemma answering_null backend q d q' :
  let null := {| error := None; data := d; count := None |} in
  let zero := {| error := None; data := d; count := Some 0%N |} in
  countOf (select (answering backend q null) q')
  = countOf (select (answering backend q zero) q')
  /\ data (select (answering backend q null) q')
     = data (select (answering backend q zero) q').
Proof. cbn. by destruct (decide (q' = q)). Qed.

(** C4.  [getCountOrZero] returns 0 for a response that carries an error
    (after logging it) and for one whose count is null.  Whichever query [q]
    of the page is answered that way, the page returns to an administrator
    the very props it returns when [q] is answered with a count of 0, and
    the log it is given is only extended. *)
Theorem failed_count_query_counts_as_zero
    (session : Session) (period : QueryValue) (now nowForMessages : Date)
    (backend : Backend) (q : Query) (label e : string)
    (d : option (list Row)) (c : option N) (log : list LogEntry) :
  let failed := {| error := Some e; data := d; count := c |} in
  let null := {| error := None; data := d; count := None |} in
  let zero := {| error := None; data := d; count := Some 0%N |} in
  let page b :=
    getServerSideProps (HasSession session) period now nowForMessages b log in
  getCountOrZero failed label log
  = (0, log ++ [{| log_message := "Erreur lors du chargement de " +:+ label +:+ ":";
                   log_error := e |}])
  /\ getCountOrZero null label log = (0, log)
  /\ exists props,
       (page (answering backend q zero)).1 = Props props
       /\ (page (answering backend q failed)).1 = Props props
       /\ (page (answering backend q null)).1 = Props props
       /\ (exists entries, (page (answering backend q failed)).2 = log ++ entries)
       /\ (exists entries, (page (answering backend q null)).2 = log ++ entries).
Proof.
  intros failed null zero page. split; [reflexivity|]. split; [reflexivity|].
  assert (Hprops : forall b, exists props entries, page b = (Props props, log ++ entries)).
  { intros b. subst page. cbn beta. rewrite getServerSideProps_run.
    destruct (m_error (selectMessages b)); eexists _, _; reflexivity. }
  destruct (Hprops (answering backend q zero)) as (props & ? & Hzero).
  exists props. split; [by rewrite Hzero|].
  assert (Hfailed : (page (answering backend q failed)).1 = Props props).
  { transitivity ((page (answering backend q zero)).1); [| by rewrite Hzero].
    subst page. cbn beta. apply getServerSideProps_ext; [| reflexivity].
    intros q'. apply answering_same. }
  assert (Hnull : (page (answering backend q null)).1 = Props props).
  { transitivity ((page (answering backend q zero)).1); [| by rewrite Hzero].
    subst page. cbn beta. apply getServerSideProps_ext; [| reflexivity].
    intros q'. apply answering_null. }
  repeat split; try assumption.
  - destruct (Hprops (answering backend q failed)) as (? & entries & ->). by exists entries.
  - destruct (Hprops (answering backend q null)) as (? & entries & ->). by exists entries.
Qed.

(** C10.  When the in-app-message query carries an error, the page still
    returns props: the message statistics are the zeroed [baseStats], the
    dashboard metrics are those of the success branch, and the props have no
    [selectedPeriod], which the success branch always sets. *)
Theorem message_query_failure_zeroes_stats_and_drops_period
    (session : Session) (period : QueryValue) (now nowForMessages : Date)
    (backend : Backend) (e : string) (d d' : option (list Message))
    (log : list LogEntry) :
  let failed := withMessages backend {| m_data := d; m_error := Some e |} in
  let succeeded := withMessages backend {| m_data := d'; m_error := None |} in
  let page b :=
    getServerSideProps (HasSession session) period now nowForMessages b log in
  exists onError onSuccess,
    (page failed).1 = Props onError
    /\ (page succeeded).1 = Props onSuccess
    /\ messageStats onError
       = {| total := 0; active := 0; targeted := 0; upcoming := 0;
            lastMessageTitle := None; lastMessageUpdatedAt := None;
            generatedAt := now |}
    /\ dashboardMetrics onError = dashboardMetrics onSuccess
    /\ initialSession onError = session
    /\ selectedPeriod onError = None
    /\ selectedPeriod onSuccess = Some (selectPeriod period)
    /\ (page failed).2
       = (page succeeded).2
           ++ [{| log_message := "Erreur lors du chargement des messages:";
                  log_error := e |}].
Proof.
  intros failed succeeded page. subst page. cbn beta.
  rewrite !getServerSideProps_run.
  subst failed succeeded. cbn [withMessages selectMessages m_error m_data].
  eexists _, _. repeat split. cbn [snd]. by rewrite <- app_assoc.
Qed.

End BestEffort.

Section ChartFacts.
Import Calendar Dashboard.
Context `{Host}.

Lemma isSameDay_day (a : option Date) (day : Z) :
  isSameDay a (MakeDate day 0) = true <-> Day <$> a = Some day.
Proof.
  assert (Hms : 0 <= 0 < msPerDay) by (unfold msPerDay; lia).
  destruct a as [a |]; cbn [isSameDay fmap option_fmap option_map]; [| done].
  rewrite Z.eqb_eq, !startOfDay_eq, Day_MakeDate by exact Hms.
  split.
  - intros Heq. f_equal. unfold msPerDay in Heq. lia.
  - intros [= ->]. reflexivity.
Qed.

Lemma filter_isSameDay_length (day : Z) (l : list Row) :
  length (List.filter (fun item => isSameDay (parseISO (created_at item))
                                             (MakeDate day 0)) l)
  = rowsOnDay day l.
Proof.
  unfold rowsOnDay. induction l as [| row l IH]; [reflexivity|].
  cbn [List.filter]. rewrite filter_cons.
  pose proof (isSameDay_day (parseISO (created_at row)) day) as Hsame.
  destruct (isSameDay (parseISO (created_at row)) (MakeDate day 0)).
  - rewrite decide_True by (by apply Hsame). cbn [length]. by rewrite IH.
  - rewrite decide_False; [exact IH|].
    intros Hday. apply Hsame in Hday. discriminate.
Qed.

Lemma chartSeries_days (days : list Z) (response : Response) :
  chartSeries ((fun day => MakeDate day 0) <$> days) response
  = (fun day => {| name := formatDay (MakeDate day 0);
                   value := rowsOnDay day (default [] (data response)) |})
      <$> days.
Proof.
  unfold chartSeries. induction days as [| day days IH]; [reflexivity|].
  cbn [fmap list_fmap map]. rewrite filter_isSameDay_length. f_equal. exact IH.
Qed.

Lemma chartSeries_failure (days : list Date) (e : string) :
  chartSeries days (failure e)
  = (fun day => {| name := formatDay day; value := 0%nat |}) <$> days.
Proof. reflexivity. Qed.

(** C7.  Each of the three chart series the page returns has one point per
    calendar day of the selected period, from its first day to its last in
    order (there is at least one), and the value of the point of a day is
    the number of fetched rows whose [created_at] falls on that day.  A row
    query that failed carries no rows: every value of its series is 0. *)
Theorem chart_series_one_point_per_day
    (session : Session) (period : QueryValue) (now nowForMessages : Date)
    (backend : Backend) (log : list LogEntry) :
  let r := periodRanges (selectPeriod period) now in
  let first := Day (startOfPeriod r) in
  let days := windowDays (startOfPeriod r) (endOfPeriod r) in
  let series t :=
    (fun day => {| name := formatDay (MakeDate day 0);
                   value := rowsOnDay day (fetched backend r t) |})
      <$> seqZ first days in
  exists props log',
    getServerSideProps (HasSession session) period now nowForMessages backend log
    = (Props props, log')
    /\ 0 < days
    /\ userGrowthData (dashboardMetrics props) = series "profiles"
    /\ analysisActivityData (dashboardMetrics props) = series "analyses"
    /\ waitlistGrowthData (dashboardMetrics props) = series "waitlist"
    /\ (forall (e : string) (l : list Date),
          chartSeries l (failure e)
          = (fun day => {| name := formatDay day; value := 0%nat |}) <$> l).
Proof.
  intros r first days series.
  rewrite getServerSideProps_run. fold r.
  assert (Hfirst : first = Day (startDate r))
    by (subst first; unfold startOfPeriod; apply Day_startOfDay).
  assert (Hdays : days = windowDays (startDate r) (endDate r)).
  { subst days. unfold windowDays, startOfPeriod, endOfPeriod.
    by rewrite Day_startOfDay, Day_endOfDay. }
  assert (Hpos : 0 < days).
  { rewrite Hdays. unfold windowDays.
    pose proof (Day_le _ _ (periodRanges_ordered (selectPeriod period) now)).
    fold r in H0. lia. }
  set (dm := buildMetrics backend r now (readCounts backend r []).1 (seriesDays r)).
  assert (Hdm : userGrowthData dm = series "profiles"
                /\ analysisActivityData dm = series "analyses"
                /\ waitlistGrowthData dm = series "waitlist").
  { subst dm series. unfold seriesDays. rewrite <- Hfirst, <- Hdays.
    cbn [buildMetrics userGrowthData analysisActivityData waitlistGrowthData].
    rewrite !chartSeries_days. done. }
  destruct Hdm as (Hu & Ha & Hw).
  destruct (m_error (selectMessages backend)); eexists _, _;
    (split; [reflexivity|]); cbn [dashboardMetrics];
    repeat split; try assumption; intros; apply chartSeries_failure.
Qed.

(** The metrics in the props of the page are those [buildMetrics] builds
    from the counts read. *)
Lemma page_props_metrics session period now nowForMessages backend log props log' :
  getServerSideProps (HasSession session) period now nowForMessages backend log
  = (Props props, log') ->
  let r := periodRanges (selectPeriod period) now in
  dashboardMetrics props
  = buildMetrics backend r now (readCounts backend r []).1 (seriesDays r).
Proof.
  rewrite getServerSideProps_run.
  destruct (m_error (selectMessages backend)); intros [= <- _]; reflexivity.
Qed.

(** No metric [buildMetrics] builds has a null previous value. *)
Lemma buildMetrics_trend_branches backend r now c days :
  let dm := buildMetrics backend r now c days in
  trendBranch (totalUsers dm) <> NoPrevious
  /\ trendBranch (weeklySignups dm) <> NoPrevious
  /\ trendBranch (analyses dm) <> NoPrevious
  /\ trendBranch (waitlist dm) <> NoPrevious.
Proof.
  unfold trendBranch.
  cbn [buildMetrics totalUsers weeklySignups analyses waitlist previous
       deltaPercentage].
  repeat split;
    match goal with |- context [deltaPercent ?a ?b] =>
      destruct (deltaPercent a b); discriminate end.
Qed.

(** C9, as the page computes it.  The previous value of the total-users
    metric is [max(totalUsersCount - periodUsersCount, 0)]: never null and
    never negative, so its trend never takes the no-previous-data exit, and
    its delta is the period signup count whenever
    [totalUsersCount >= periodUsersCount].  The previous values of the other
    three metrics are counts and are never null either: their trends never
    take that exit. *)
Theorem total_users_previous_never_null
    (session : Session) (period : QueryValue) (now nowForMessages : Date)
    (backend : Backend) (log : list LogEntry) :
  let r := periodRanges (selectPeriod period) now in
  let allUsers := countOf (select backend (countAll "profiles")) in
  let signups :=
    countOf (select backend
               (countBetween "profiles" (startOfPeriod r) (endOfPeriod r))) in
  exists props log',
    getServerSideProps (HasSession session) period now nowForMessages backend log
    = (Props props, log')
    /\ let m := totalUsers (dashboardMetrics props) in
       previous m = Some (Z.max (allUsers - signups) 0)
       /\ 0 <= Z.max (allUsers - signups) 0
       /\ trendBranch m <> NoPrevious
       /\ (signups <= allUsers -> delta m = signups)
       /\ trendBranch (weeklySignups (dashboardMetrics props)) <> NoPrevious
       /\ trendBranch (analyses (dashboardMetrics props)) <> NoPrevious
       /\ trendBranch (waitlist (dashboardMetrics props)) <> NoPrevious.
Proof.
  intros r allUsers signups.
  rewrite getServerSideProps_run. fold r.
  set (dm := buildMetrics backend r now (readCounts backend r []).1 (seriesDays r)).
  assert (Hdm : previous (totalUsers dm)
                = Some (Z.max (allUsers - signups) 0)
                /\ 0 <= Z.max (allUsers - signups) 0
                /\ trendBranch (totalUsers dm) <> NoPrevious
                /\ (signups <= allUsers
                    -> delta (totalUsers dm) = signups)
                /\ trendBranch (weeklySignups dm) <> NoPrevious
                /\ trendBranch (analyses dm) <> NoPrevious
                /\ trendBranch (waitlist dm) <> NoPrevious).
  { destruct (buildMetrics_trend_branches backend r now
                (readCounts backend r []).1 (seriesDays r)) as (Ht & Hs & Ha & Hw).
    fold dm in Ht, Hs, Ha, Hw.
    subst dm. rewrite readCounts_value in *.
    cbn [buildMetrics totalUsers previous delta totalUsersCount periodUsersCount].
    fold allUsers signups.
    repeat split; try assumption; lia. }
  destruct (m_error (selectMessages backend)); eexists _, _;
    (split; [reflexivity|]); exact Hdm.
Qed.

End ChartFacts.

Section NoPreviousBranch.
Import Calendar Dashboard Examples.

(** C9 as stated sets the total-users metric apart from the other three,
    which it does not differ from: with every query failing, the trends of
    the other three metrics take the absolute-delta exit, and on no input at
    all does one of them take the no-previous-data exit. *)
Lemma other_metrics_never_take_no_previous_branch :
  (exists props log',
     getServerSideProps (@HasSession host "root") QAbsent noon noon
                        backendDown []
     = (Props props, log')
     /\ previous (weeklySignups (dashboardMetrics props)) = Some 0
     /\ trendBranch (weeklySignups (dashboardMetrics props)) = Absolute
     /\ trendBranch (analyses (dashboardMetrics props)) = Absolute
     /\ trendBranch (waitlist (dashboardMetrics props)) = Absolute)
  /\ ~ (exists (H : Host) session period now nowForMessages backend log props log',
          getServerSideProps (HasSession session) period now nowForMessages
                             backend log
          = (Props props, log')
          /\ (trendBranch (weeklySignups (dashboardMetrics props)) = NoPrevious
              \/ trendBranch (analyses (dashboardMetrics props)) = NoPrevious
              \/ trendBranch (waitlist (dashboardMetrics props)) = NoPrevious)).
Proof.
  split.
  - rewrite getServerSideProps_run. cbn [backendDown selectMessages m_error].
    eexists _, _. split; [reflexivity|]. cbn [dashboardMetrics].
    rewrite readCounts_value. repeat split.
  - intros (H & session & period & now & nowForMessages & backend & log & props
            & log' & Hrun & Hbranch).
    rewrite (page_props_metrics _ _ _ _ _ _ _ _ Hrun) in Hbranch.
    destruct (buildMetrics_trend_branches backend
                (periodRanges (selectPeriod period) now) now
                (readCounts backend (periodRanges (selectPeriod period) now) []).1
                (seriesDays (periodRanges (selectPeriod period) now)))
      as (_ & Hs & Ha & Hw).
    destruct Hbranch as [Hb | [Hb | Hb]]; contradiction.
Qed.

End NoPreviousBranch.

(* ------------------------------------------------------------------------- *)
(** ** Facts about the upload endpoint *)
(* ------------------------------------------------------------------------- *)

Section UploadFacts.
Import Upload.
Local Open Scope string_scope.

Lemma truthy_string s : truthy (JString s) = true <-> s <> "".
Proof.
  cbn [truthy]. destruct (String.eqb_spec s ""); cbn [negb]; split; congruence.
Qed.

Ltac run_handler :=
  cbv [tryCatch mbind Handler_bind mret Handler_ret respond setHeader
       consoleError recordUpload asString throw emptyWorld];
  cbn [sent stored headers console app fst snd].

Ltac answer_with tac :=
  run_handler;
  split; [reflexivity|];
  eexists; split; [reflexivity|];
  split; [tac | cbn [json status]; auto].

(** C2.  The handler never throws.  A caller [assertApiAdmin] rejects gets
    what that helper answered and nothing else happens: no header, no
    storage call, no log line.  An administrator gets exactly one response:
    405 for a method other than POST; otherwise 400 when [file] or
    [fileName] is missing from the body; otherwise 500 when the upload
    fails, when no public URL comes back, or when an exception is caught (a
    body that is [null], a field that is no string, a storage call that
    throws); otherwise 200 with [{ url, path }].  The body of the response is
    [{ url, path }] only with status 200, and an [{ error }] otherwise. *)
Theorem upload_handler_answers (env : Env) (req : Request) :
  let run := handler env req emptyWorld in
  run.1 = inr tt
  /\ match assertApiAdmin env req with
     | Rejected answer =>
         run.2 = {| sent := answer; headers := []; stored := []; console := [] |}
     | Granted =>
         exists response,
           sent run.2 = [response]
           /\ Answers env req response (stored run.2)
           /\ match json response with
              | UploadedJson _ _ => status response = 200
              | ErrorJson _ =>
                  status response = 400 \/ status response = 405
                  \/ status response = 500
              end
     end.
Proof.
  destruct req as [method body].
  cbv zeta. unfold handler, awaitAssertApiAdmin.
  destruct (assertApiAdmin env _) eqn:Eadmin; cbn [mret Handler_ret fst snd];
    [| split; reflexivity].
  set (req := {| method := method; body := body |}).
  cbn [Upload.method].
  destruct (decide (method = Some "POST")) as [Hpost | Hpost].
  2:{ rewrite bool_decide_eq_false_2 by exact Hpost.
      answer_with ltac:(by apply MethodNotAllowed). }
  rewrite bool_decide_eq_true_2 by exact Hpost. cbn [negb].
  unfold uploadImage. cbn [Upload.body req].
  destruct body as [| file fileName].
  { pose proof (ThrowsNoBody env req eq_refl) as Hthrow.
    answer_with ltac:(apply (UnexpectedException env req _ _ Hpost Hthrow)). }
  destruct (truthy file) eqn:Efile; cbn [negb orb].
  2:{ answer_with ltac:(eapply MissingField; eauto). }
  destruct (truthy fileName) eqn:EfileName; cbn [negb orb].
  2:{ answer_with ltac:(eapply MissingField; eauto). }
  destruct file as [| | b | n | file |];
    try (assert (Hthrow : Throws env req (JsError "file.replace is not a function") [])
           by (eapply ThrowsFileNotString; [reflexivity | done | done | done]);
         answer_with ltac:(apply (UnexpectedException env req _ _ Hpost Hthrow))).
  assert (Hfile : file <> "") by (by apply truthy_string).
  destruct fileName as [| | b | n | fileName |];
    try (assert (Hthrow : Throws env req
                            (JsError "fileName.replace is not a function") [])
           by (eapply ThrowsFileNameNotString; [reflexivity | done | done | done]);
         answer_with ltac:(apply (UnexpectedException env req _ _ Hpost Hthrow))).
  assert (HfileName : fileName <> "") by (by apply truthy_string).
  run_handler. fold (callFor env file fileName).
  change (filePathOf (dateNow env) fileName)
    with (key (callFor env file fileName)).
  destruct (storageUpload env (callFor env file fileName))
    as [| message | e] eqn:Eup.
  - destruct (getPublicUrl env (key (callFor env file fileName)))
      as [[url |] | e] eqn:Eurl.
    + destruct (String.eqb_spec url "") as [-> | Hurl].
      * answer_with ltac:(eapply UrlFailure; eauto).
      * answer_with ltac:(eapply Success; eauto).
    + answer_with ltac:(eapply UrlFailure; eauto).
    + pose proof (ThrowsUrl env req _ _ e eq_refl Hfile HfileName Eup Eurl) as Hthrow.
      answer_with ltac:(apply (UnexpectedException env req _ _ Hpost Hthrow)).
  - answer_with ltac:(eapply UploadFailure; eauto).
  - pose proof (ThrowsUpload env req _ _ e eq_refl Hfile HfileName Eup) as Hthrow.
    answer_with ltac:(apply (UnexpectedException env req _ _ Hpost Hthrow)).
Qed.

End UploadFacts.

Section StorageKey.
Import Upload.
Local Open Scope string_scope.








End StorageKey.

Section ContentType.
Import Upload.
Local Open Scope string_scope.

Lemma split_nonempty sep s : split sep s <> [].
Proof.
  destruct s as [| c s]; cbn; [done|].
  destruct (Ascii.eqb c sep); [done|]. by destruct (split sep s).
Qed.

Lemma split_app sep (a b : string) :
  split sep (a +:+ String sep b) = (split sep a ++ split sep b)%list.
Proof.
  induction a as [| c a IH].
  - change ("" +:+ String sep b) with (String sep b).
    cbn [split]. by rewrite Ascii.eqb_refl.
  - change (String c a +:+ String sep b) with (String c (a +:+ String sep b)).
    cbn [split]. destruct (Ascii.eqb c sep); [by rewrite IH|].
    rewrite IH. pose proof (split_nonempty sep a).
    by destruct (split sep a).
Qed.

Lemma split_no_sep sep s :
  sep ∉ list_ascii_of_string s -> split sep s = [s].
Proof.
  induction s as [| c s IH]; cbn; [done|].
  intros Hnot. apply not_elem_of_cons in Hnot as [Hne Hnot].
  destruct (Ascii.eqb_spec c sep); [congruence|]. by rewrite IH.
Qed.

(** The text after the last dot: the whole name when it has no dot. *)
Lemma last_segment (fileName stem ext : string) :
  hasNoDot ext ->
  fileName = ext \/ fileName = stem +:+ "." +:+ ext ->
  last (split "." fileName) = Some ext.
Proof.
  intros Hext [-> | ->].
  - by rewrite split_no_sep.
  - change ("." +:+ ext) with (String "." ext).
    rewrite split_app, (split_no_sep "." ext Hext). apply last_snoc.
Qed.

Lemma toLowerCase_empty s : toLowerCase s = "" <-> s = "".
Proof. by destruct s. Qed.

Lemma mimeTypes_lookup (extension : string) :
  extension ∈ ["jpg"; "jpeg"; "png"; "gif"; "webp"; "svg"] ->
  mimeTypes !! extension = Some (mimeOfExtension extension).
Proof.
  intros Hin. repeat (apply elem_of_cons in Hin as [-> | Hin]; [by vm_compute|]).
  by apply elem_of_nil in Hin.
Qed.

Lemma mimeTypes_lookup_None (extension : string) :
  extension ∉ ["jpg"; "jpeg"; "png"; "gif"; "webp"; "svg"] ->
  mimeTypes !! extension = None /\ mimeOfExtension extension = "image/jpeg".
Proof.
  intros Hnot. split.
  - unfold mimeTypes. apply not_elem_of_list_to_map_1. exact Hnot.
  - unfold mimeOfExtension.
    repeat match goal with
           | |- context [String.eqb extension ?k] =>
               destruct (String.eqb_spec extension k) as [-> | ?];
               [exfalso; apply Hnot; set_solver|]
           end.
    reflexivity.
Qed.

(** C5, as the handler computes it.  The key looked up is the lowercased
    text after the last dot of the file name: the whole name when it has no
    dot, and [jpg] when that text is empty.  Unless the key names a member
    every object inherits ([constructor], [__proto__]), the content type is
    the entry of the fixed table for the key, and [image/jpeg] when the
    table has none. *)
Theorem content_type_from_last_segment (fileName stem ext : string) :
  hasNoDot ext ->
  fileName = ext \/ fileName = stem +:+ "." +:+ ext ->
  let extension := if String.eqb ext "" then "jpg" else toLowerCase ext in
  extension ∉ objectPrototype ->
  fileExtensionOf fileName = extension
  /\ contentTypeOf fileName = Mime (mimeOfExtension extension).
Proof.
  intros Hext Hname extension Hproto.
  assert (Hkey : fileExtensionOf fileName = extension).
  { unfold fileExtensionOf. rewrite (last_segment _ _ _ Hext Hname).
    subst extension. cbv zeta.
    destruct (String.eqb_spec ext "") as [-> | Hne]; [reflexivity|].
    destruct (String.eqb_spec (toLowerCase ext) "") as [Hlow | _]; [| reflexivity].
    destruct ext; [done | discriminate Hlow]. }
  split; [exact Hkey|].
  unfold contentTypeOf, mimeTypesGet. rewrite Hkey.
  destruct (decide (extension ∈ ["jpg"; "jpeg"; "png"; "gif"; "webp"; "svg"]))
    as [Hin | Hnot].
  - by rewrite (mimeTypes_lookup _ Hin).
  - destruct (mimeTypes_lookup_None _ Hnot) as [-> ->].
    by rewrite bool_decide_eq_false_2.
Qed.

(** C5 as stated fails on a file name without a dot that spells a key of the
    table: the whole name is taken for the extension. *)
Lemma dotless_name_is_its_own_extension :
  hasNoDot "png"
  /\ fileExtensionOf "png" = "png"
  /\ contentTypeOf "png" = Mime "image/png"
  /\ contentTypeOf "png" <> Mime "image/jpeg".
Proof.
  split; [| split; [| split]].
  - unfold hasNoDot. apply (bool_decide_unpack _). by vm_compute.
  - by vm_compute.
  - by vm_compute.
  - by vm_compute.
Qed.

(** A key that names an inherited member is not looked up in the table. *)
Example content_type_of_inherited_member :
  contentTypeOf "photo.constructor" = ObjectMember "constructor".
Proof. by vm_compute. Qed.

End ContentType.

(* ------------------------------------------------------------------------- *)
(** ** The handlers at concrete inputs *)
(* ------------------------------------------------------------------------- *)

Section Witnesses.
Import Calendar Dashboard Upload Examples.
Local Open Scope string_scope.

(** [holiday.photo.PNG]: the text after the last dot is [PNG], the key
    looked up is [png], and the content type is [image/png]. *)
Lemma content_type_from_last_segment_witness :
  hasNoDot "PNG"
  /\ ("holiday.photo.PNG" = "PNG"
      \/ "holiday.photo.PNG" = "holiday.photo" +:+ ("." +:+ "PNG"))
  /\ ("png" ∉ objectPrototype)
  /\ fileExtensionOf "holiday.photo.PNG" = "png"
  /\ contentTypeOf "holiday.photo.PNG" = Mime (mimeOfExtension "png").
Proof.
  assert (Hext : hasNoDot "PNG")
    by (unfold hasNoDot; apply (bool_decide_unpack _); vm_compute; exact I).
  assert (Hname : "holiday.photo.PNG" = "PNG"
                  \/ "holiday.photo.PNG" = "holiday.photo" +:+ ("." +:+ "PNG"))
    by (right; reflexivity).
  assert (Hproto : "png" ∉ objectPrototype)
    by (apply (bool_decide_unpack _); vm_compute; exact I).
  split; [exact Hext|]. split; [exact Hname|]. split; [exact Hproto|].
  exact (content_type_from_last_segment "holiday.photo.PNG" "holiday.photo" "PNG"
           Hext Hname Hproto).
Defined.

(** The dashboard of the last seven days on 15 March 2024, over a backend
    with 40 profiles of which 10 are new: 30 users before the period, a third
    more now; as many signups as in the seven days before; a quarter of the
    consent records opted in; seven chart points, the last one counting the
    row created that day. *)
Example dashboard_of_a_week :
  let run := getServerSideProps (@HasSession host "root") (QString "7d")
                                noon noon backendUp [] in
  match run.1 with
  | Props props =>
      run.2 = []
      /\ selectedPeriod props = Some "7d"
      /\ totalUsers (dashboardMetrics props)
         = {| current := 40; previous := Some 30; delta := 10;
              deltaPercentage := Some (1000 # 30) |}
      /\ previous (weeklySignups (dashboardMetrics props)) = Some 10
      /\ delta (weeklySignups (dashboardMetrics props)) = 0
      /\ rate (marketing (consent (dashboardMetrics props))) = (200 # 8)
      /\ (value <$> userGrowthData (dashboardMetrics props))
         = [0; 0; 0; 0; 0; 0; 1]%nat
  | _ => False
  end.
Proof. vm_compute. repeat split. Qed.

(** With no backend at all the page still renders: every count is 0, every
    percentage is null, and eleven errors are logged. *)
Example dashboard_without_backend :
  let run := getServerSideProps (@HasSession host "root") QAbsent
                                noon noon backendDown [] in
  match run.1 with
  | Props props =>
      length run.2 = 11%nat
      /\ selectedPeriod props = None
      /\ totalUsers (dashboardMetrics props)
         = {| current := 0; previous := Some 0; delta := 0;
              deltaPercentage := None |}
      /\ rate (marketing (consent (dashboardMetrics props))) = 0%Q
      /\ (value <$> userGrowthData (dashboardMetrics props))
         = [0; 0; 0; 0; 0; 0; 0]%nat
  | _ => False
  end.
Proof. vm_compute. repeat split. Qed.

(** A caller without a session gets the result of [requireAdminSession]. *)
Example dashboard_without_session :
  getServerSideProps (@NoSession host "/login") QAbsent noon noon backendUp []
  = (@Returned host "/login", []).
Proof. reflexivity. Qed.

(** An upload that goes through. *)
Example upload_of_a_photo :
  let env := {| assertApiAdmin := fun _ => Granted;
                dateNow := 1710504000000;
                storageUpload := fun _ => Uploaded;
                getPublicUrl := fun path => UrlData (Some ("https://cdn/" +:+ path)) |} in
  let req := {| method := Some "POST";
                body := Fields (JString "data:image/png;base64,iVBORw0KGgo=")
                               (JString "my photo (1).PNG") |} in
  (handler env req emptyWorld).2
  = {| sent := [{| status := 200;
                   json := UploadedJson
                             "https://cdn/messages/1710504000000-my_photo__1_.PNG"
                             "messages/1710504000000-my_photo__1_.PNG" |}];
       headers := [];
       stored := [{| bucket := "Images";
                     key := "messages/1710504000000-my_photo__1_.PNG";
                     payload := BufferFromBase64 "iVBORw0KGgo=";
                     contentType := Mime "image/png";
                     upsert := false |}];
       console := [] |}.
Proof. by vm_compute. Qed.

(** A GET is refused with 405 and an [Allow] header. *)
Example upload_with_get :
  let env := {| assertApiAdmin := fun _ => Granted;
                dateNow := 1710504000000;
                storageUpload := fun _ => Uploaded;
                getPublicUrl := fun path => UrlData (Some path) |} in
  (handler env {| method := Some "GET"; body := NoBody |} emptyWorld).2
  = {| sent := [{| status := 405; json := ErrorJson "Méthode non autorisée" |}];
       headers := [("Allow", "POST")];
       stored := [];
       console := [] |}.
Proof. by vm_compute. Qed.

End Witnesses.

(* ------------------------------------------------------------------------- *)
(** ** Further properties of the dashboard page *)
(* ------------------------------------------------------------------------- *)

Section TrendFacts.
Import Calendar Dashboard Home.
Context `{Host}.
Local Open Scope string_scope.

Lemma trendVariant_signOf current previous :
  trendVariant (current - previous) = (signOf current previous).1
  /\ trendPrefix (current - previous) = (signOf current previous).2.
Proof.
  unfold trendVariant, trendPrefix, signOf.
  destruct (Z.compare_spec current previous);
    destruct (Z.eqb_spec (current - previous) 0);
    destruct (Z.ltb_spec 0 (current - previous));
    destruct (Z.ltb_spec (current - previous) 0); try lia; done.
Qed.

Lemma formatTrend_counts cur prev label :
  (0 <= prev)%Z ->
  formatTrend {| current := cur; previous := Some prev; delta := cur - prev;
                 deltaPercentage := deltaPercent (cur - prev) prev |} label
  = trendOfCounts cur prev label.
Proof.
  intros Hprev. unfold formatTrend, trendBranch, trendOfCounts, deltaPercent.
  cbn [previous deltaPercentage delta].
  destruct (trendVariant_signOf cur prev) as [-> ->].
  destruct (Z.eqb_spec prev 0) as [-> | Hne].
  - cbn [Z.ltb Z.compare]. reflexivity.
  - destruct (Z.ltb_spec 0 prev); [| lia].
    reflexivity.
Qed.






(** X2.  The total-users card never shows a decline.  Its delta is the
    smaller of the total and the period signups, between 0 and the total;
    its trend is never negative, and it is neutral exactly when that delta is
    0. *)
Theorem total_users_trend_is_never_negative
    (session : Session) (period : QueryValue) (now nowForMessages : Date)
    (backend : Backend) (log : list LogEntry) (label : string) :
  let r := periodRanges (selectPeriod period) now in
  let allUsers := countOf (select backend (countAll "profiles")) in
  let signups :=
    countOf (select backend
               (countBetween "profiles" (startOfPeriod r) (endOfPeriod r))) in
  exists props log',
    getServerSideProps (HasSession session) period now nowForMessages backend log
    = (Props props, log')
    /\ let m := totalUsers (dashboardMetrics props) in
       delta m = Z.min allUsers signups
       /\ (0 <= delta m <= current m)%Z
       /\ variant (formatTrend m label) <> negative
       /\ (variant (formatTrend m label) = neutral <-> delta m = 0%Z)
       /\ match deltaPercentage m with
          | Some q => (0 <= q)%Q
          | None => True
          end.
Proof.
  intros r allUsers signups.
  rewrite getServerSideProps_run. fold r.
  set (dm := buildMetrics backend r now (readCounts backend r []).1 (seriesDays r)).
  assert (Hdm : delta (totalUsers dm) = Z.min allUsers signups
                /\ (0 <= delta (totalUsers dm) <= current (totalUsers dm))%Z
                /\ variant (formatTrend (totalUsers dm) label) <> negative
                /\ (variant (formatTrend (totalUsers dm) label) = neutral
                    <-> delta (totalUsers dm) = 0%Z)
                /\ match deltaPercentage (totalUsers dm) with
                   | Some q => (0 <= q)%Q
                   | None => True
                   end).
  { pose proof (countOf_nonneg (select backend (countAll "profiles"))) as Hall.
    pose proof (countOf_nonneg
                  (select backend (countBetween "profiles" (startOfPeriod r)
                                                (endOfPeriod r)))) as Hsign.
    fold allUsers in Hall. fold signups in Hsign.
    subst dm. rewrite readCounts_value.
    cbn [buildMetrics totalUsers delta current deltaPercentage totalUsersCount
         periodUsersCount].
    fold allUsers signups.
    set (prev := Z.max (allUsers - signups) 0).
    assert (Eprev : prev = Z.max (allUsers - signups) 0) by reflexivity.
    clearbody prev.
    assert (Hprev : (0 <= prev)%Z) by lia.
    rewrite (formatTrend_counts allUsers prev label Hprev).
    cbn [trendOfCounts variant]. unfold signOf.
    split; [lia|]. split; [lia|].
    split; [| split].
    - destruct (Z.compare_spec allUsers prev); cbn [fst]; try discriminate. lia.
    - destruct (Z.compare_spec allUsers prev); cbn [fst];
        split; first [done | discriminate | lia | intros; exfalso; lia].
    - unfold deltaPercent. destruct (Z.ltb_spec 0 prev); [| done].
      unfold Qle, Qdiv, Qmult, Qinv, inject_Z. cbn [Qnum Qden].
      destruct prev as [| p | p]; try lia. cbn [Qnum Qden]. nia. }
  destruct (m_error (selectMessages backend)); eexists _, _;
    (split; [reflexivity|]); exact Hdm.
Qed.

End TrendFacts.

Section RateFacts.
Import Calendar Dashboard Home.
Context `{Host}.





End RateFacts.


Section SeriesFacts.
Import Calendar Dashboard Home.
Context `{Host}.

(** The points of a series of [buildMetrics], day by day. *)
Lemma buildMetrics_series backend r now c :
  let dm := buildMetrics backend r now c (seriesDays r) in
  let series t :=
    (fun day => {| name := formatDay (MakeDate day 0);
                   value := rowsOnDay day (fetched backend r t) |})
      <$> seqZ (Day (startDate r)) (windowDays (startDate r) (endDate r)) in
  userGrowthData dm = series "profiles"
  /\ analysisActivityData dm = series "analyses"
  /\ waitlistGrowthData dm = series "waitlist".
Proof.
  cbv zeta. unfold seriesDays, fetched.
  cbn [buildMetrics userGrowthData analysisActivityData waitlistGrowthData].
  by rewrite !chartSeries_days.
Qed.

Lemma rowsOnDay_cons day row l :
  rowsOnDay day (row :: l)
  = ((if decide (Day <$> parseISO (created_at row) = Some day) then 1 else 0)
     + rowsOnDay day l)%nat.
Proof. unfold rowsOnDay. rewrite filter_cons. by destruct (decide _). Qed.

Lemma sum_list_fmap_add {A} (f g : A -> nat) (l : list A) :
  sum_list ((fun x => f x + g x)%nat <$> l)
  = (sum_list (f <$> l) + sum_list (g <$> l))%nat.
Proof. induction l as [| x l IH]; cbn; [done | lia]. Qed.

(** Over consecutive days, a parsed timestamp is on exactly one day when it
    is within them, and on none otherwise. *)
Lemma sum_day_indicator (t : option Z) (first : Z) (n : nat) :
  sum_list ((fun day => if decide (t = Some day) then 1 else 0)%nat
              <$> seqZ first (Z.of_nat n))
  = match t with
    | Some d => if bool_decide (first <= d < first + Z.of_nat n)%Z then 1 else 0
    | None => 0
    end%nat.
Proof.
  induction n as [| n IH].
  - cbn. destruct t; [| done]. by rewrite bool_decide_eq_false_2 by lia.
  - replace (Z.of_nat (S n)) with (Z.of_nat n + 1)%Z by lia.
    rewrite seqZ_app by lia. rewrite fmap_app, sum_list_with_app, IH.
    change (seqZ (first + Z.of_nat n) 1) with [(first + Z.of_nat n)%Z].
    cbn [fmap list_fmap sum_list sum_list_with].
    destruct t as [d |]; [| by destruct (decide _)].
    destruct (decide (Some d = Some (first + Z.of_nat n)%Z)) as [[= ->] | Hne].
    + rewrite bool_decide_eq_false_2 by lia.
      rewrite bool_decide_eq_true_2 by lia. done.
    + assert (d <> first + Z.of_nat n)%Z by congruence.
      destruct (decide (first <= d < first + Z.of_nat n)%Z).
      * rewrite !bool_decide_eq_true_2 by lia. done.
      * rewrite !bool_decide_eq_false_2 by lia. done.
Qed.

Lemma sum_rowsOnDay (first : Z) (n : nat) (l : list Row) :
  sum_list ((fun day => rowsOnDay day l) <$> seqZ first (Z.of_nat n))
  = length (List.filter (inWindow first (Z.of_nat n)) l).
Proof.
  induction l as [| row l IH].
  - cbn [List.filter length]. induction (seqZ first (Z.of_nat n)); cbn; done.
  - rewrite (list_fmap_ext _ (fun day =>
               (if decide (Day <$> parseISO (created_at row) = Some day)
                then 1 else 0) + rowsOnDay day l)%nat (seqZ first (Z.of_nat n)))
      by (intros; apply rowsOnDay_cons).
    rewrite sum_list_fmap_add, IH, sum_day_indicator.
    cbn [List.filter]. unfold inWindow at 2.
    destruct (parseISO (created_at row)) as [t |]; cbn [fmap option_fmap option_map];
      [| done].
    by destruct (bool_decide _).
Qed.

Lemma filter_length_le {A} (f : A -> bool) (l : list A) :
  (length (List.filter f l) <= length l)%nat.
Proof. induction l as [| x l IH]; cbn; [done|]. destruct (f x); cbn; lia. Qed.

(** X4.  The values of a chart series add up to the number of fetched rows
    whose [created_at] falls on a day of the selected period: each such row
    is counted once, on its day, and a row outside the period or with a
    timestamp that does not parse is counted nowhere. *)
Theorem chart_values_count_each_row_once
    (session : Session) (period : QueryValue) (now nowForMessages : Date)
    (backend : Backend) (log : list LogEntry) :
  let r := periodRanges (selectPeriod period) now in
  let first := Day (startOfPeriod r) in
  let days := windowDays (startOfPeriod r) (endOfPeriod r) in
  let counted t :=
    length (List.filter (inWindow first days) (fetched backend r t)) in
  exists props log',
    getServerSideProps (HasSession session) period now nowForMessages backend log
    = (Props props, log')
    /\ sum_list (value <$> userGrowthData (dashboardMetrics props))
       = counted "profiles"
    /\ sum_list (value <$> analysisActivityData (dashboardMetrics props))
       = counted "analyses"
    /\ sum_list (value <$> waitlistGrowthData (dashboardMetrics props))
       = counted "waitlist"
    /\ (counted "profiles" <= length (fetched backend r "profiles"))%nat
    /\ (counted "analyses" <= length (fetched backend r "analyses"))%nat
    /\ (counted "waitlist" <= length (fetched backend r "waitlist"))%nat.
Proof.
  intros r first days counted.
  rewrite getServerSideProps_run. fold r.
  assert (Hfirst : first = Day (startDate r))
    by (subst first; unfold startOfPeriod; apply Day_startOfDay).
  assert (Hdays : days = windowDays (startDate r) (endDate r)).
  { subst days. unfold windowDays, startOfPeriod, endOfPeriod.
    by rewrite Day_startOfDay, Day_endOfDay. }
  assert (Hpos : (0 <= days)%Z).
  { rewrite Hdays. unfold windowDays.
    pose proof (Day_le _ _ (periodRanges_ordered (selectPeriod period) now)) as Hle.
    fold r in Hle. lia. }
  set (dm := buildMetrics backend r now (readCounts backend r []).1 (seriesDays r)).
  destruct (buildMetrics_series backend r now (readCounts backend r []).1)
    as (Hu & Ha & Hw).
  fold dm in Hu, Ha, Hw. rewrite <- Hfirst, <- Hdays in Hu, Ha, Hw.
  assert (Hsum : forall t,
    sum_list (value <$> ((fun day => {| name := formatDay (MakeDate day 0);
                                       value := rowsOnDay day (fetched backend r t) |})
                           <$> seqZ first days))
    = counted t).
  { intros t. subst counted. cbv beta. rewrite <- list_fmap_compose.
    rewrite <- (Z2Nat.id days Hpos). apply sum_rowsOnDay. }
  assert (Hdm : sum_list (value <$> userGrowthData dm) = counted "profiles"
                /\ sum_list (value <$> analysisActivityData dm) = counted "analyses"
                /\ sum_list (value <$> waitlistGrowthData dm) = counted "waitlist").
  { rewrite Hu, Ha, Hw. by rewrite !Hsum. }
  destruct Hdm as (Su & Sa & Sw).
  destruct (m_error (selectMessages backend)); eexists _, _;
    (split; [reflexivity|]); cbn [dashboardMetrics];
    repeat split; try assumption; apply filter_length_le.
Qed.

(** Evaluates the month table at the literal months of the goal. *)
Ltac eval_months :=
  repeat match goal with
         | |- context [DayFromMonth (?a + 1) ?l] =>
             let v := eval vm_compute in (a + 1)%Z in change (a + 1)%Z with v
         end;
  lazy beta iota zeta
       delta [DayFromMonth Z.leb Z.eqb Z.compare Pos.compare Pos.compare_cont
              Pos.eqb].

(** A month has 28 to 31 days. *)
Lemma month_length k : (28 <= monthStart (k + 1) - monthStart k <= 31)%Z.
Proof.
  assert (Hk : k = (12 * (k / 12) + k mod 12)%Z) by (Z.div_mod_to_equations; lia).
  assert (Hm : (0 <= k mod 12 <= 11)%Z) by (Z.div_mod_to_equations; lia).
  pose proof (monthStart_next (k / 12) (k mod 12) Hm) as Hnext.
  pose proof (monthStart_eq (k / 12) (k mod 12) Hm) as Hthis.
  rewrite <- Hk in Hnext, Hthis. rewrite Hnext, Hthis. clear Hnext Hthis.
  pose proof (leapDay_cases (k / 12)) as Hl.
  set (m := (k mod 12)%Z) in *. set (l := leapDay (k / 12)) in *.
  assert (Hc : (m = 0 \/ m = 1 \/ m = 2 \/ m = 3 \/ m = 4 \/ m = 5 \/ m = 6 \/
                m = 7 \/ m = 8 \/ m = 9 \/ m = 10 \/ m = 11)%Z) by lia.
  clearbody m l. clear Hk.
  repeat (destruct Hc as [-> | Hc]); [..| subst m]; eval_months; lia.
Qed.

Lemma getDate_range t : (1 <= getDate t <= 31)%Z.
Proof.
  unfold getDate. rewrite DateFromDay_monthStart.
  pose proof (monthStart_monthIndex (Day t)).
  pose proof (month_length (monthIndex (Day t))). lia.
Qed.

(** The number of days of the current window, period by period. *)
Lemma window_days_by_period period now :
  let r := periodRanges period now in
  let days := windowDays (startDate r) (endDate r) in
  (1 <= days <= 31)%Z
  /\ days = if String.eqb period "30d" then 30%Z
            else if String.eqb period "month" then getDate now
            else if String.eqb period "last_month"
                 then (monthStart (monthIndex (Day now))
                       - monthStart (monthIndex (Day now) - 1))%Z
            else 7%Z.
Proof.
  cbv zeta. unfold periodRanges, windowDays.
  destruct (String.eqb period "30d"); [| destruct (String.eqb period "month");
    [| destruct (String.eqb period "last_month")]]; cbn [startDate endDate].
  - rewrite Day_subDays. lia.
  - rewrite Day_startOfMonth. pose proof (getDate_range now) as Hd.
    unfold getDate in *. rewrite DateFromDay_monthStart in *. lia.
  - rewrite Day_startOfMonth, Day_endOfMonth, monthIndex_subMonths.
    pose proof (month_length (monthIndex (Day now) - 1)) as Hm.
    replace (monthIndex (Day now) - 1 + 1)%Z with (monthIndex (Day now)) in * by lia.
    lia.
  - rewrite Day_subDays. lia.
Qed.

(** X5.  The three chart series have the same number of points and the same
    labels.  That number is 7 for [7d] and for any selector the switch does
    not know, 30 for [30d], the day of the month for [month], and the length
    of the previous calendar month for [last_month]: never fewer than 1 nor
    more than 31. *)
Theorem chart_series_have_one_to_thirty_one_points
    (session : Session) (period : QueryValue) (now nowForMessages : Date)
    (backend : Backend) (log : list LogEntry) :
  let p := selectPeriod period in
  let points : nat :=
    Z.to_nat (if String.eqb p "30d" then 30%Z
              else if String.eqb p "month" then getDate now
              else if String.eqb p "last_month"
                   then (monthStart (monthIndex (Day now))
                         - monthStart (monthIndex (Day now) - 1))%Z
              else 7%Z) in
  exists props log',
    getServerSideProps (HasSession session) period now nowForMessages backend log
    = (Props props, log')
    /\ (1 <= points <= 31)%nat
    /\ length (userGrowthData (dashboardMetrics props)) = points
    /\ length (analysisActivityData (dashboardMetrics props)) = points
    /\ length (waitlistGrowthData (dashboardMetrics props)) = points
    /\ name <$> analysisActivityData (dashboardMetrics props)
       = name <$> userGrowthData (dashboardMetrics props)
    /\ name <$> waitlistGrowthData (dashboardMetrics props)
       = name <$> userGrowthData (dashboardMetrics props).
Proof.
  intros p points.
  rewrite getServerSideProps_run. fold p.
  set (r := periodRanges p now).
  set (dm := buildMetrics backend r now (readCounts backend r []).1 (seriesDays r)).
  destruct (buildMetrics_series backend r now (readCounts backend r []).1)
    as (Hu & Ha & Hw).
  fold dm in Hu, Ha, Hw.
  destruct (window_days_by_period p now) as [Hrange Hdays]. fold r in Hrange, Hdays.
  assert (Hpoints : points = Z.to_nat (windowDays (startDate r) (endDate r)))
    by (subst points; by rewrite Hdays).
  assert (Hdm : (1 <= points <= 31)%nat
                /\ length (userGrowthData dm) = points
                /\ length (analysisActivityData dm) = points
                /\ length (waitlistGrowthData dm) = points
                /\ name <$> analysisActivityData dm = name <$> userGrowthData dm
                /\ name <$> waitlistGrowthData dm = name <$> userGrowthData dm).
  { rewrite Hu, Ha, Hw, !length_fmap, !length_seqZ, <- !list_fmap_compose.
    rewrite Hpoints. repeat split; try lia; done. }
  destruct (m_error (selectMessages backend)); eexists _, _;
    (split; [reflexivity|]); exact Hdm.
Qed.

(** X6.  The current window of [7d], [30d], [month] and of any selector the
    switch does not know holds the present instant; the current window of
    [last_month] ends before the present month begins.  In every period the
    current window begins on or before the present instant. *)
Theorem current_window_and_now (period : string) (now : Date) :
  let r := periodRanges period now in
  (startOfPeriod r <= now)%Z
  /\ (startOfPeriod r <= endOfPeriod r)%Z
  /\ if String.eqb period "last_month"
     then (endOfPeriod r < startOfMonth now)%Z /\ (startOfMonth now <= now)%Z
     else (now <= endOfPeriod r)%Z.
Proof.
  cbv zeta.
  assert (Hday : forall t, (startOfDay t <= t <= endOfDay t)%Z).
  { intros t. unfold startOfDay, endOfDay.
    pose proof (MakeDate_Day t) as Ht. pose proof (TimeWithinDay_range t).
    unfold MakeDate, msPerDay in *. lia. }
  assert (Hmono : forall t t', (t <= t')%Z -> (startOfDay t <= startOfDay t')%Z).
  { intros t t' Hle. rewrite !startOfDay_eq.
    pose proof (Day_le _ _ Hle). unfold msPerDay. lia. }
  unfold periodRanges, startOfPeriod, endOfPeriod.
  destruct (String.eqb_spec period "30d") as [-> | H30].
  { cbn [String.eqb Ascii.eqb Bool.eqb startDate endDate].
    pose proof (Hday now). pose proof (Hday (subDays now 29)).
    rewrite subDays_eq in *. unfold msPerDay in *. lia. }
  destruct (String.eqb_spec period "month") as [-> | Hm].
  { cbn [String.eqb Ascii.eqb Bool.eqb startDate endDate].
    pose proof (Hday now). pose proof (Hday (startOfMonth now)).
    pose proof (startOfMonth_le now). lia. }
  destruct (String.eqb_spec period "last_month") as [-> | Hl].
  { cbn [startDate endDate].
    pose proof (startOfMonth_le now) as Hnow.
    pose proof (Hday (startOfMonth (subMonths now 1))) as Hs.
    pose proof (startOfMonth_le_endOfMonth (subMonths now 1)) as Hse.
    pose proof (Hday (endOfMonth (subMonths now 1))) as He.
    assert (Hend : (endOfDay (endOfMonth (subMonths now 1)) < startOfMonth now)%Z).
    { unfold endOfDay. rewrite Day_endOfMonth, monthIndex_subMonths, startOfMonth_eq.
      replace (monthIndex (Day now) - 1 + 1)%Z with (monthIndex (Day now)) by lia.
      unfold MakeDate, msPerDay. lia. }
    lia. }
  cbn [startDate endDate].
  pose proof (Hday now). pose proof (Hday (subDays now 6)).
  rewrite subDays_eq in *. unfold msPerDay in *. lia.
Qed.

End SeriesFacts.

Section PageFacts.
Import Calendar Dashboard Home.
Context `{Host}.
Local Open Scope string_scope.

Ltac console_appends :=
  repeat first [ apply appends_ret
               | apply appends_getCountOrZero
               | apply appends_console_error
               | apply appends_bind; [| intros ?] ].

Lemma bind_log {A B} (m : Console A) (f : A -> Console B) :
  (forall a, appends (f a)) ->
  ((m ≫= f) []).2 = ((m []).2 ++ (f (m []).1 []).2)%list.
Proof.
  intros Hf. unfold mbind, Console_bind.
  destruct (m []) as [a l]. cbn [fst snd]. by rewrite (Hf a l).
Qed.

Lemma getCountOrZero_log response label :
  (getCountOrZero response label []).2 = errorLine response label.
Proof. unfold getCountOrZero, errorLine. by destruct (error response). Qed.

(** The lines [readCounts] logs: one per count query that carries an error,
    in the order of the calls. *)
Lemma readCounts_log backend r :
  (readCounts backend r []).2
  = flat_map (fun ql => errorLine (select backend ql.1) ql.2) (countQueries r).
Proof.
  unfold readCounts.
  do 10 (rewrite bind_log by (intros ?; console_appends);
         rewrite getCountOrZero_log).
  cbn [flat_map countQueries fst snd mret Console_ret].
  reflexivity.
Qed.

(** X7.  The page logs one line for each of the ten count queries that
    carries an error, in the order of the [getCountOrZero] calls, then one
    line if the message query carries an error, and nothing else: an error of
    one of the three row queries of the charts is never logged. *)
Theorem page_logs_count_and_message_errors_only
    (session : Session) (period : QueryValue) (now nowForMessages : Date)
    (backend : Backend) (log : list LogEntry) :
  let r := periodRanges (selectPeriod period) now in
  (getServerSideProps (HasSession session) period now nowForMessages backend log).2
  = (log
     ++ flat_map (fun ql => errorLine (select backend ql.1) ql.2) (countQueries r)
     ++ messageErrorLine (selectMessages backend))%list
  /\ Forall (fun ql => head_only ql.1 = true) (countQueries r)
  /\ (length (flat_map (fun ql => errorLine (select backend ql.1) ql.2)
                       (countQueries r)) <= 10)%nat.
Proof.
  intros r. rewrite getServerSideProps_run. fold r.
  rewrite readCounts_log. unfold messageErrorLine.
  split; [| split].
  - destruct (m_error (selectMessages backend)); cbn [snd]; [done|].
    by rewrite app_nil_r.
  - repeat constructor.
  - cbn [flat_map countQueries fst snd]. rewrite !length_app.
    unfold errorLine.
    repeat match goal with
           | |- context [error ?x] => destruct (error x)
           end; cbn; lia.
Qed.


Lemma isActiveButton_class selectedPeriod p :
  isActiveButton {| b_label := p.2;
                    b_className := buttonClass selectedPeriod p.1;
                    b_onClick := p.1 |}
  = bool_decide (selectedPeriod = Some p.1).
Proof.
  unfold isActiveButton, buttonClass. cbn [b_className].
  by destruct (bool_decide (selectedPeriod = Some p.1)).
Qed.

(** The buttons that carry the active class: the one of the selected period
    when it is one of [PERIODS], and none otherwise. *)
Lemma active_buttons selectedPeriod :
  b_onClick <$> List.filter isActiveButton (periodButtons selectedPeriod)
  = match selectedPeriod with
    | Some s => if bool_decide (s ∈ PERIODS.*1) then [s] else []
    | None => []
    end.
Proof.
  unfold periodButtons, PERIODS.
  cbn [fmap list_fmap List.filter]. rewrite !isActiveButton_class. cbn [fst snd].
  destruct selectedPeriod as [s |]; [| reflexivity].
  destruct (decide (s = "7d")) as [-> | H7]; [by vm_compute|].
  destruct (decide (s = "30d")) as [-> | H30]; [by vm_compute|].
  destruct (decide (s = "month")) as [-> | Hm]; [by vm_compute|].
  destruct (decide (s = "last_month")) as [-> | Hl]; [by vm_compute|].
  rewrite !bool_decide_eq_false_2 by congruence.
  rewrite bool_decide_eq_false_2; [reflexivity|].
  cbn [fmap list_fmap fst]. rewrite !elem_of_cons, elem_of_nil.
  intros [? | [? | [? | [? | []]]]]; congruence.
Qed.


(** X9.  A click on a button of the segmented control pushes the pathname
    it is on with the period of the button in the query, the other
    parameters kept; the page served for that query (the message query
    succeeding) selects that period, and marks that button and no other. *)
Theorem period_button_click_selects_its_period
    (session : Session) (router : Router) (selected : option string)
    (b : PeriodButton) (now nowForMessages : Date) (backend : Backend)
    (log : list LogEntry) :
  b ∈ periodButtons selected ->
  m_error (selectMessages backend) = None ->
  let url := handlePeriodChange router (b_onClick b) in
  p_pathname url = pathname router
  /\ (forall k, k <> "period" -> p_query url !! k = query router !! k)
  /\ selectPeriod (queryPeriod (p_query url)) = b_onClick b
  /\ exists props log',
       getServerSideProps (HasSession session) (queryPeriod (p_query url))
                          now nowForMessages backend log
       = (Props props, log')
       /\ selectedPeriod props = Some (b_onClick b)
       /\ b_onClick <$> List.filter isActiveButton
                          (periodButtons (selectedPeriod props))
          = [b_onClick b].
Proof.
  intros Hb Hmsg url.
  assert (Hperiod : queryPeriod (p_query url) = QString (b_onClick b)).
  { subst url. unfold queryPeriod, handlePeriodChange. cbn [p_query].
    by rewrite lookup_insert_eq. }
  split; [reflexivity|]. split.
  { intros k Hk. subst url. cbn [handlePeriodChange p_query].
    by rewrite lookup_insert_ne. }
  split; [by rewrite Hperiod|].
  rewrite Hperiod, getServerSideProps_run, Hmsg. cbn [selectPeriod].
  eexists _, _. split; [reflexivity|]. split; [reflexivity|].
  cbn [selectedPeriod]. rewrite active_buttons.
  assert (Hin : b_onClick b ∈ PERIODS.*1).
  { unfold periodButtons in Hb. apply list_elem_of_fmap in Hb as (p & -> & Hp).
    cbn [b_onClick]. apply list_elem_of_fmap. by exists p. }
  by rewrite bool_decide_eq_true_2.
Qed.

End PageFacts.

Section MessageFacts.
Import Calendar Dashboard Home.
Context `{Host}.
Local Open Scope string_scope.

Lemma filter_length_mono {A} (f g : A -> bool) (l : list A) :
  (forall x, f x = true -> g x = true) ->
  (length (List.filter f l) <= length (List.filter g l))%nat.
Proof.
  intros Hfg. induction l as [| x l IH]; cbn; [done|].
  destruct (f x) eqn:Ef.
  - rewrite (Hfg x Ef). cbn. lia.
  - destruct (g x); cbn; lia.
Qed.

Lemma messageStatsOf_bounds messages now nowForMessages :
  let s := messageStatsOf messages now nowForMessages in
  total s = length messages
  /\ (active s <= total s)%nat /\ (targeted s <= total s)%nat
  /\ (upcoming s <= total s)%nat
  /\ generatedAt s = now
  /\ (total s = 0%nat -> s = baseStats now).
Proof.
  cbv zeta. unfold messageStatsOf.
  cbn [total active targeted upcoming generatedAt].
  repeat split; try apply filter_length_le.
  intros Hlen. by destruct messages.
Qed.

(** X10.  In the message statistics the page returns, the numbers of
    active, targeted and upcoming messages (and so every tile of the message
    section) never exceed the total, which is
    the number of rows fetched (0 when the query failed or carried no data);
    with a total of 0 the statistics are the zeroed ones of the error
    branch, whether the query failed or the table is empty. *)
Theorem message_counts_are_bounded_by_total
    (session : Session) (period : QueryValue) (now nowForMessages : Date)
    (backend : Backend) (log : list LogEntry) :
  exists props log',
    getServerSideProps (HasSession session) period now nowForMessages backend log
    = (Props props, log')
    /\ let s := messageStats props in
       total s = match m_error (selectMessages backend) with
                 | Some _ => 0%nat
                 | None => length (default [] (m_data (selectMessages backend)))
                 end
       /\ (active s <= total s)%nat /\ (targeted s <= total s)%nat
       /\ (upcoming s <= total s)%nat
       /\ generatedAt s = now
       /\ (total s = 0%nat -> s = baseStats now)
       /\ Forall (fun tile => (mm_value tile <= total s)%nat) (messageMetrics s).
Proof.
  assert (Htiles : forall s : MessageStats,
            (active s <= total s)%nat -> (targeted s <= total s)%nat ->
            (upcoming s <= total s)%nat ->
            Forall (fun tile => (mm_value tile <= total s)%nat) (messageMetrics s)).
  { intros s Ha Ht Hu. unfold messageMetrics.
    repeat apply Forall_cons_2; try apply Forall_nil_2; cbn [mm_value]; lia. }
  rewrite getServerSideProps_run.
  destruct (m_error (selectMessages backend)); eexists _, _;
    (split; [reflexivity|]); cbn [messageStats]; cbv zeta.
  - split; [reflexivity|]. repeat split; try (cbn; lia).
    apply Htiles; cbn; lia.
  - match goal with
    | |- context [messageStatsOf ?m ?a ?b] =>
        pose proof (messageStatsOf_bounds m a b) as Hb
    end.
    cbv zeta in Hb. destruct Hb as (Ht & Ha & Hg & Hu & Hnow & Hzero).
    repeat split; try assumption. by apply Htiles.
Qed.

Lemma isUpcoming_later n1 n2 m :
  n1 <= n2 -> isUpcoming n2 m = true -> isUpcoming n1 m = true.
Proof.
  intros Hle. unfold isUpcoming.
  destruct (start_date m) as [s |]; [| done].
  destruct (String.eqb s ""); [done|].
  destruct (newDate s) as [d |]; [| done].
  rewrite !Z.ltb_lt. lia.
Qed.

(** X11.  A message is upcoming when its [start_date] is neither null nor
    empty, is read by the [Date] constructor, and is strictly after the
    second reading of the clock.  So a later reading never counts more
    upcoming messages, and changes nothing else in the statistics. *)
Theorem later_clock_never_counts_more_upcoming
    (messages : list Message) (now n1 n2 : Date) :
  n1 <= n2 ->
  let s1 := messageStatsOf messages now n1 in
  let s2 := messageStatsOf messages now n2 in
  (upcoming s2 <= upcoming s1)%nat
  /\ total s2 = total s1 /\ active s2 = active s1 /\ targeted s2 = targeted s1
  /\ lastMessageTitle s2 = lastMessageTitle s1
  /\ lastMessageUpdatedAt s2 = lastMessageUpdatedAt s1
  /\ Forall (fun m =>
               isUpcoming n1 m = true <->
               exists s d, start_date m = Some s /\ s <> "" /\ newDate s = Some d
                           /\ n1 < d)
            messages.
Proof.
  intros Hle. cbv zeta.
  cbn [messageStatsOf upcoming total active targeted lastMessageTitle
       lastMessageUpdatedAt].
  split; [apply filter_length_mono; intros m; by apply isUpcoming_later|].
  repeat split; try reflexivity.
  apply Forall_forall. intros m _. unfold isUpcoming.
  destruct (start_date m) as [s |].
  - destruct (String.eqb_spec s "") as [-> | Hne].
    + split; [done|]. intros (s & d & [= <-] & Hs & _). done.
    + destruct (newDate s) as [d |] eqn:Ed.
      * rewrite Z.ltb_lt. split.
        -- intros Hlt. by exists s, d.
        -- intros (s' & d' & [= <-] & _ & Hd & Hlt). rewrite Ed in Hd.
           by injection Hd as ->.
      * split; [done|]. intros (s' & d' & [= <-] & _ & Hd & _).
        rewrite Ed in Hd. done.
  - split; [done|]. by intros (s & d & ? & _).
Qed.

End MessageFacts.

Section UtcDay.
Import Calendar Home.

(** X12.  For a date whose year is not between 0 and 99, [startOfUtcDay] is
    midnight of the same day: at most the date and less than a day before
    it, and a fixed point of the function.  (In the years 0 to 99
    [Date.UTC] reads the year as 1900 plus it.) *)
Theorem startOfUtcDay_is_midnight_of_the_day (date : Date) :
  ~ (0 <= YearFromDay (Day date) <= 99) ->
  startOfUtcDay date = Day date * msPerDay
  /\ startOfUtcDay date <= date < startOfUtcDay date + msPerDay
  /\ Day (startOfUtcDay date) = Day date
  /\ TimeWithinDay (startOfUtcDay date) = 0
  /\ startOfUtcDay (startOfUtcDay date) = startOfUtcDay date.
Proof.
  intros Hyear.
  assert (Hstart : forall t, ~ (0 <= YearFromDay (Day t) <= 99) ->
                             startOfUtcDay t = MakeDate (Day t) 0).
  { intros t Ht. unfold startOfUtcDay, DateUTC.
    destruct (Z.leb_spec 0 (YearFromDay (Day t)));
      destruct (Z.leb_spec (YearFromDay (Day t)) 99); cbn [andb]; try lia;
      by rewrite MakeDay_getters. }
  assert (Hms : 0 <= 0 < msPerDay) by (unfold msPerDay; lia).
  rewrite (Hstart date Hyear).
  assert (Hday : Day (MakeDate (Day date) 0) = Day date)
    by (by apply Day_MakeDate).
  pose proof (MakeDate_Day date) as Hd. pose proof (TimeWithinDay_range date).
  split; [unfold MakeDate; lia|].
  split; [unfold MakeDate, msPerDay in *; lia|].
  split; [exact Hday|].
  split; [by apply TimeWithinDay_MakeDate|].
  rewrite Hstart by (by rewrite Hday). by rewrite Hday.
Qed.

End UtcDay.

(* ------------------------------------------------------------------------- *)
(** ** Further properties of the upload endpoint *)
(* ------------------------------------------------------------------------- *)

Section DataUri.
Import Upload UploadSpec.
Local Open Scope string_scope.

Lemma string_app_assoc (a b c : string) : (a +:+ b) +:+ c = a +:+ b +:+ c.
Proof.
  induction a as [| x a IH]; [reflexivity|].
  change (String x (a +:+ b) +:+ c = String x (a +:+ b +:+ c)).
  change (String x ((a +:+ b) +:+ c) = String x (a +:+ b +:+ c)). by rewrite IH.
Qed.

Lemma stripPrefix_app (p s : string) : stripPrefix p (p +:+ s) = Some s.
Proof.
  induction p as [| a p IH]; [by destruct s|].
  change (String a p +:+ s) with (String a (p +:+ s)).
  cbn [stripPrefix]. by rewrite Ascii.eqb_refl.
Qed.

Lemma stripPrefix_Some (p s r : string) :
  stripPrefix p s = Some r -> s = p +:+ r.
Proof.
  revert s. induction p as [| a p IH]; intros s.
  - destruct s; cbn [stripPrefix]; by intros [= <-].
  - destruct s as [| b s]; [done|]. cbn [stripPrefix].
    destruct (Ascii.eqb_spec a b) as [-> | ?]; [| done].
    intros Hs. apply IH in Hs as ->. reflexivity.
Qed.

(** [skipWord] splits off the longest prefix of word characters. *)
Lemma skipWord_split (s : string) :
  exists w, s = w +:+ (skipWord s).2
            /\ String.length w = (skipWord s).1
            /\ Forall (fun c => isWord c = true) (list_ascii_of_string w).
Proof.
  induction s as [| c s (w & Hs & Hlen & Hw)].
  - by exists "".
  - cbn [skipWord]. destruct (isWord c) eqn:Ec.
    + destruct (skipWord s) as [n r]. cbn [fst snd] in *.
      exists (String c w). repeat split.
      * change (String c w +:+ r) with (String c (w +:+ r)). by rewrite <- Hs.
      * cbn. by rewrite Hlen.
      * cbn. by constructor.
    + by exists "".
Qed.

Lemma skipWord_app (w r : string) :
  Forall (fun c => isWord c = true) (list_ascii_of_string w) ->
  skipWord (w +:+ String ";" r) = (String.length w, String ";" r).
Proof.
  induction w as [| c w IH]; intros Hw.
  - reflexivity.
  - change (String c w +:+ String ";" r) with (String c (w +:+ String ";" r)).
    cbn [skipWord]. cbn in Hw. apply Forall_cons in Hw as [-> Hw].
    by rewrite (IH Hw).
Qed.

(** X13.  [file.replace(...)] removes the header of an image data URI and
    nothing else: the data URI of an image with a subtype made of [\w]
    characters is mapped to its payload, and any other string is left as it
    is (the header of [image/svg+xml], whose subtype has a [+], stays). *)
Theorem stripDataUri_removes_image_headers_only (file : string) :
  (forall subtype payload,
      isImageDataUri file subtype payload -> stripDataUri file = payload)
  /\ ((forall subtype payload, ~ isImageDataUri file subtype payload) ->
      stripDataUri file = file)
  /\ stripDataUri "data:image/svg+xml;base64,PHN2Zy8+"
     = "data:image/svg+xml;base64,PHN2Zy8+".
Proof.
  split; [| split; [| reflexivity]].
  - intros subtype payload (-> & Hne & Hw). unfold stripDataUri.
    rewrite stripPrefix_app.
    change (";base64," +:+ payload) with (String ";" ("base64," +:+ payload)).
    rewrite (skipWord_app _ _ Hw).
    destruct subtype as [| c subtype]; [done|]. cbn [String.length].
    change (String ";" ("base64," +:+ payload)) with (";base64," +:+ payload).
    by rewrite stripPrefix_app.
  - intros Hnot. unfold stripDataUri.
    destruct (stripPrefix "data:image/" file) as [rest |] eqn:Eprefix; [| done].
    apply stripPrefix_Some in Eprefix.
    destruct (skipWord_split rest) as (w & Hrest & Hlen & Hw).
    destruct (skipWord rest) as [[| n] rest']; [done|]. cbn [fst snd] in *.
    destruct (stripPrefix ";base64," rest') as [payload |] eqn:Ebase; [| done].
    apply stripPrefix_Some in Ebase. exfalso.
    apply (Hnot w payload). repeat split.
    + by rewrite Eprefix, Hrest, Ebase.
    + intros ->. discriminate Hlen.
    + exact Hw.
Qed.

End DataUri.

Section Sanitize.
Import Upload UploadSpec.
Local Open Scope string_scope.

Lemma isKeyChar_underscore : isKeyChar "_" = true.
Proof. reflexivity. Qed.










End Sanitize.

Section HandlerFacts.
Import Upload UploadSpec.
Local Open Scope string_scope.

Ltac run_upload :=
  cbv [tryCatch mbind Handler_bind mret Handler_ret respond setHeader
       consoleError recordUpload asString throw emptyWorld];
  cbn [sent stored headers console app fst snd length status json].

(** Splits a run of the handler into its cases: rejected caller, method,
    body, fields, storage answer, public URL. *)
Ltac handler_cases env req :=
  destruct req as [method body];
  cbv zeta; unfold handler, awaitAssertApiAdmin, headersFor;
  cbn [Upload.method Upload.body];
  destruct (assertApiAdmin env _) eqn:Eadmin; cbn [mret Handler_ret fst snd];
  [ destruct (decide (method = Some "POST")) as [Hpost | Hpost];
    [ rewrite !bool_decide_eq_true_2 by exact Hpost; cbn [negb];
      unfold uploadImage; cbn [Upload.body];
      destruct body as [| file fileName];
      [ | destruct (truthy file) eqn:Efile; cbn [negb orb];
          [ destruct (truthy fileName) eqn:EfileName; cbn [negb orb];
            [ destruct file as [| | ? | ? | file |];
              [ | | | | destruct fileName as [| | ? | ? | fileName |];
                      [ | | | |
                        run_upload; fold (callFor env file fileName);
                        change (filePathOf (dateNow env) fileName)
                          with (key (callFor env file fileName));
                        destruct (storageUpload env (callFor env file fileName))
                          as [| message | e] eqn:Eup;
                        [ destruct (getPublicUrl env
                                      (key (callFor env file fileName)))
                            as [[url |] | e] eqn:Eurl;
                          [ destruct (String.eqb_spec url "") as [-> | Hurl]
                          | | ]
                        | | ]
                      | ]
              | ]
            | ]
          | ] ]
    | rewrite !bool_decide_eq_false_2 by exact Hpost; cbn [negb] ]
  | ];
  run_upload.

(** X16.  The handler calls the storage at most once, and only for an
    administrator's POST whose [file] and [fileName] are non-empty strings:
    in the bucket [Images], without upsert, under the key and the content
    type computed from the file name, with the payload of the data URI. *)
Theorem storage_is_called_only_for_well_formed_uploads
    (env : Env) (req : Request) :
  let w := (handler env req emptyWorld).2 in
  (length (stored w) <= 1)%nat
  /\ (stored w <> [] ->
      assertApiAdmin env req = Granted
      /\ method req = Some "POST"
      /\ exists file fileName,
           body req = Fields (JString file) (JString fileName)
           /\ file <> "" /\ fileName <> ""
           /\ stored w
              = [{| bucket := "Images";
                    key := filePathOf (dateNow env) fileName;
                    payload := BufferFromBase64 (stripDataUri file);
                    contentType := contentTypeOf fileName;
                    upsert := false |}]).
Proof.
  handler_cases env req; (split; [lia|]); try done;
    intros _; (split; [done|]); (split; [done|]);
    exists file, fileName; repeat split; first [done | by apply truthy_string].
Qed.


End HandlerFacts.

Section MimeFacts.
Import Upload UploadSpec.
Local Open Scope string_scope.

Lemma lowerChar_not_upper c : isUpper (lowerChar c) = false.
Proof.
  destruct c as [[] [] [] [] [] [] [] []]; by vm_compute.
Qed.

Lemma toLowerCase_no_upper s :
  Forall (fun c => isUpper c = false) (list_ascii_of_string (toLowerCase s)).
Proof.
  induction s as [| c s IH]; cbn; constructor; [apply lowerChar_not_upper | done].
Qed.

Lemma lowerChar_dot c : lowerChar c = "."%char -> c = "."%char.
Proof.
  destruct c as [[] [] [] [] [] [] [] []]; vm_compute; congruence.
Qed.

Lemma toLowerCase_no_dot s : hasNoDot s -> hasNoDot (toLowerCase s).
Proof.
  unfold hasNoDot. induction s as [| c s IH]; cbn; [done|].
  rewrite !not_elem_of_cons. intros [Hc Hs]. split; [| by apply IH].
  intros Heq. apply Hc. symmetry. by apply lowerChar_dot.
Qed.

(** No segment of a split holds the separator. *)
Lemma split_segments sep s :
  Forall (fun seg => sep ∉ list_ascii_of_string seg) (split sep s).
Proof.
  induction s as [| c s IH]; cbn [split].
  - repeat constructor. cbn. by apply not_elem_of_nil.
  - destruct (Ascii.eqb_spec c sep) as [-> | Hne].
    + constructor; [cbn; by apply not_elem_of_nil | exact IH].
    + destruct (split sep s) as [| seg segs].
      * repeat constructor. cbn. rewrite not_elem_of_cons.
        split; [congruence | by apply not_elem_of_nil].
      * apply Forall_cons in IH as [Hseg Hsegs]. constructor; [| exact Hsegs].
        cbn. rewrite not_elem_of_cons. split; [congruence | exact Hseg].
Qed.

Lemma last_segment_exists sep s : exists seg,
  last (split sep s) = Some seg /\ sep ∉ list_ascii_of_string seg.
Proof.
  pose proof (split_nonempty sep s) as Hne. pose proof (split_segments sep s) as Hall.
  destruct (last (split sep s)) as [seg |] eqn:El.
  - exists seg. split; [done|]. rewrite Forall_forall in Hall. apply Hall.
    by apply last_Some_elem_of.
  - by apply last_None in El.
Qed.

(** The invariants of the key the table is read with. *)
Lemma fileExtensionOf_invariants fileName :
  fileExtensionOf fileName <> ""
  /\ hasNoDot (fileExtensionOf fileName)
  /\ Forall (fun c => isUpper c = false)
            (list_ascii_of_string (fileExtensionOf fileName)).
Proof.
  unfold fileExtensionOf.
  destruct (last_segment_exists "." fileName) as (seg & -> & Hseg).
  destruct (String.eqb_spec (toLowerCase seg) "") as [_ | Hne].
  - repeat split; [done | | by repeat constructor].
    unfold hasNoDot. apply (bool_decide_unpack _). by vm_compute.
  - repeat split; [done | by apply toLowerCase_no_dot | apply toLowerCase_no_upper].
Qed.

(** X18.  The key the MIME table is read with is never empty, holds no dot
    and no upper-case letter, whatever the file name. *)
Theorem extension_key_is_lowercase_and_dotless (fileName : string) :
  fileExtensionOf fileName <> ""
  /\ hasNoDot (fileExtensionOf fileName)
  /\ Forall (fun c => isUpper c = false)
            (list_ascii_of_string (fileExtensionOf fileName))
  /\ fileExtensionOf (toLowerCase fileName) = fileExtensionOf fileName.
Proof.
  destruct (fileExtensionOf_invariants fileName) as (Hne & Hdot & Hup).
  repeat split; try assumption.
  unfold fileExtensionOf.
  assert (Hsplit : forall s, split "." (toLowerCase s) = toLowerCase <$> split "." s).
  { induction s as [| c s IH]; [reflexivity|]. cbn [toLowerCase split].
    destruct (Ascii.eqb_spec c ".") as [-> | Hc].
    - cbn. by rewrite IH.
    - destruct (Ascii.eqb_spec (lowerChar c) ".") as [Hl | _];
        [by apply lowerChar_dot in Hl|].
      rewrite IH. by destruct (split "." s). }
  assert (Hidem : forall s, toLowerCase (toLowerCase s) = toLowerCase s).
  { induction s as [| c s IH]; [reflexivity|]. cbn [toLowerCase]. rewrite IH.
    f_equal. unfold lowerChar at 1. by rewrite lowerChar_not_upper. }
  rewrite Hsplit, fmap_last.
  destruct (last (split "." fileName)) as [seg |]; [| reflexivity].
  cbn [fmap option_fmap option_map]. by rewrite Hidem.
Qed.

Lemma inherited_lowercase key :
  Forall (fun c => isUpper c = false) (list_ascii_of_string key) ->
  key ∈ objectPrototype -> key = "constructor" \/ key = "__proto__".
Proof.
  intros Hup Hin.
  assert (Hex : existsb isUpper (list_ascii_of_string key) = false).
  { induction Hup as [| c l Hc _ IH]; [reflexivity|]. cbn. by rewrite Hc, IH. }
  unfold objectPrototype in Hin.
  repeat (apply elem_of_cons in Hin as [-> | Hin];
          [first [ by left | by right | vm_compute in Hex; discriminate ]|]).
  by apply elem_of_nil in Hin.
Qed.

(** X19.  Whatever the file name, the content type sent to the storage is
    one of the five MIME types of the table, or, when the lowercased last
    segment of the name is [constructor] or [__proto__], the member of that
    name every object inherits (no other inherited member can be reached:
    their names have an upper-case letter). *)
Theorem content_type_is_one_of_seven (fileName : string) :
  contentTypeOf fileName ∈ contentTypes
  /\ (forall name, contentTypeOf fileName = ObjectMember name ->
        fileExtensionOf fileName = name
        /\ (name = "constructor" \/ name = "__proto__")).
Proof.
  destruct (fileExtensionOf_invariants fileName) as (_ & _ & Hup).
  unfold contentTypeOf, mimeTypesGet.
  generalize dependent (fileExtensionOf fileName). intros key Hup.
  destruct (decide (key ∈ ["jpg"; "jpeg"; "png"; "gif"; "webp"; "svg"]))
    as [Hin | Hnot].
  - rewrite (mimeTypes_lookup _ Hin). cbn [default]. split; [| done].
    repeat (apply elem_of_cons in Hin as [-> | Hin];
            [apply (bool_decide_unpack _); by vm_compute|]).
    by apply elem_of_nil in Hin.
  - destruct (mimeTypes_lookup_None _ Hnot) as [-> _].
    destruct (decide (key ∈ objectPrototype)) as [Hproto | Hproto].
    + rewrite bool_decide_eq_true_2 by exact Hproto. cbn [default].
      destruct (inherited_lowercase key Hup Hproto) as [-> | ->].
      * split; [apply (bool_decide_unpack _); by vm_compute|].
        intros name [= <-]. auto.
      * split; [apply (bool_decide_unpack _); by vm_compute|].
        intros name [= <-]. auto.
    + rewrite bool_decide_eq_false_2 by exact Hproto. cbn [default].
      split; [apply (bool_decide_unpack _); by vm_compute | done].
Qed.

(** X20.  The content type depends on the last segment of the file name
    only, and not on the case of its letters: two names whose last segments
    are equal once lowercased get the same content type. *)
Theorem content_type_ignores_stem_and_case
    (stem1 stem2 ext1 ext2 : string) :
  hasNoDot ext1 -> hasNoDot ext2 ->
  toLowerCase ext1 = toLowerCase ext2 ->
  contentTypeOf (stem1 +:+ "." +:+ ext1) = contentTypeOf (stem2 +:+ "." +:+ ext2)
  /\ contentTypeOf ext1 = contentTypeOf (stem2 +:+ "." +:+ ext2).
Proof.
  intros H1 H2 Hlow.
  assert (Hkey : forall fileName stem ext,
            hasNoDot ext -> fileName = ext \/ fileName = stem +:+ "." +:+ ext ->
            fileExtensionOf fileName
            = if String.eqb (toLowerCase ext) "" then "jpg" else toLowerCase ext).
  { intros fileName stem ext Hext Hname. unfold fileExtensionOf.
    by rewrite (last_segment _ _ _ Hext Hname). }
  unfold contentTypeOf.
  rewrite (Hkey (stem1 +:+ "." +:+ ext1) stem1 ext1 H1) by (by right).
  rewrite (Hkey (stem2 +:+ "." +:+ ext2) stem2 ext2 H2) by (by right).
  rewrite (Hkey ext1 "" ext1 H1) by (by left).
  by rewrite Hlow.
Qed.

End MimeFacts.

(* ------------------------------------------------------------------------- *)
(** ** Properties of the layout components *)
(* ------------------------------------------------------------------------- *)

Section ComponentFacts.
Import Components.
Context {R : Type}.
Local Open Scope string_scope.

Lemma flat_map_nil_all {A B} (f : A -> list B) (l : list A) :
  (forall x, f x = []) -> flat_map f l = [].
Proof. intros Hf. induction l as [| x l IH]; cbn; [done|]. by rewrite Hf, IH. Qed.

(** X21.  A card renders every node it is given exactly once, the actions
    before the children, and nothing else of the caller's: actions are never
    dropped, since being given them is enough for the header to be
    rendered. *)
Theorem card_renders_actions_then_children
    (title description : option string) (actions : option R)
    (children : list (Node R)) (className_ : option string)
    (noPadding : option bool) :
  let card := Card title description actions children className_ noPadding in
  passedNodes card = (option_list actions ++ flat_map passedNodes children)%list
  /\ handlers card = flat_map handlers children
  /\ length (withClass "ms-card__actions" card)
     = (length (option_list actions)
        + length (flat_map (withClass "ms-card__actions") children))%nat
  /\ length (withClass "ms-card__header" card)
     = ((if truthyString title || truthyString description
            || bool_decide (is_Some actions) then 1 else 0)
        + length (flat_map (withClass "ms-card__header") children))%nat.
Proof.
  cbv zeta. unfold Card.
  destruct actions as [a |], (truthyString title), (truthyString description);
    cbn -[String.append className]; rewrite ?app_nil_r;
    repeat split; try reflexivity;
    rewrite ?bool_decide_eq_false_2
      by (rewrite ?elem_of_cons, elem_of_nil; intros Hin;
          repeat destruct Hin as [Hin | Hin]; try discriminate; done);
    rewrite ?bool_decide_eq_true_2 by (by left);
    cbn; rewrite ?app_nil_r; try reflexivity.
Qed.

Ltac not_in_attrs :=
  unfold className; cbn [app];
  repeat (rewrite elem_of_cons || rewrite elem_of_app || rewrite elem_of_nil);
  intros Hin; repeat (destruct Hin as [Hin | Hin]); try discriminate; try done.

Lemma navLink_passes_nothing (path : string) (item : NavItem) :
  passedNodes (navLink (R := R) path item) = []
  /\ handlers (navLink (R := R) path item) = [].
Proof. done. Qed.

Lemma renderNavItems_passes_nothing (path : string) (items : list NavItem) :
  flat_map passedNodes (renderNavItems (R := R) path items) = []
  /\ flat_map handlers (renderNavItems (R := R) path items) = [].
Proof.
  unfold renderNavItems. induction items as [| item items [IH1 IH2]]; [done|].
  rewrite fmap_cons. cbn [flat_map]. rewrite IH1, IH2. done.
Qed.

Lemma breadcrumbSpan_passes_nothing (count index : nat) (b : Breadcrumb) :
  passedNodes (breadcrumbSpan (R := R) count index b) = []
  /\ handlers (breadcrumbSpan (R := R) count index b) = [].
Proof.
  unfold breadcrumbSpan.
  destruct (truthyString (bc_href b)), (bool_decide (index < count - 1)%nat); done.
Qed.

Lemma imap_passes_nothing {A B} (g : Node R -> list B) (f : nat -> A -> Node R)
    (l : list A) :
  (forall i x, g (f i x) = []) -> flat_map g (imap f l) = [].
Proof.
  revert f. induction l as [| x l IH]; intros f Hf; [done|].
  cbn [imap flat_map]. rewrite Hf, IH; [done|]. intros i y. apply Hf.
Qed.

Lemma renderBreadcrumbs_passes_nothing (bs : option (list Breadcrumb)) :
  flat_map passedNodes (renderBreadcrumbs (R := R) bs) = []
  /\ flat_map handlers (renderBreadcrumbs (R := R) bs) = [].
Proof.
  destruct bs as [[| b bs] |]; [done | | done].
  unfold renderBreadcrumbs. cbn [flat_map passedNodes handlers].
  rewrite !imap_passes_nothing by (intros; apply breadcrumbSpan_passes_nothing).
  done.
Qed.

(** X22.  The shell renders every node it is given exactly once, in the
    order header actions, page actions, children, whatever the current path
    and the state of the menu; navigation items and breadcrumbs add none. *)
Theorem shell_renders_header_actions_actions_children
    (NAV : list NavItem) (props : AppShellProps (R := R)) (path : string)
    (mobileMenuOpen : bool) :
  passedNodes (AppShell NAV props path mobileMenuOpen)
  = (option_list (headerActions props) ++ option_list (actions props)
     ++ flat_map passedNodes (children props))%list.
Proof.
  unfold AppShell. cbv zeta.
  cbn [passedNodes flat_map app]. rewrite !flat_map_app.
  rewrite (proj1 (renderNavItems_passes_nothing _ _)).
  rewrite (proj1 (renderBreadcrumbs_passes_nothing _)).
  destruct (headerActions props), (actions props), (truthyString (description props)),
    mobileMenuOpen; cbn; rewrite ?app_nil_r; reflexivity.
Qed.

Lemma AppShell_handlers (NAV : list NavItem) (props : AppShellProps (R := R))
    (path : string) (mobileMenuOpen : bool) :
  handlers (AppShell NAV props path mobileMenuOpen)
  = ([SetMobileMenuOpen false; SetMobileMenuOpen (negb mobileMenuOpen)]
     ++ flat_map handlers (children props)
     ++ (if mobileMenuOpen then [SetMobileMenuOpen false] else []))%list.
Proof.
  unfold AppShell. cbv zeta.
  cbn [handlers flat_map app]. rewrite !flat_map_app.
  rewrite (proj2 (renderNavItems_passes_nothing _ _)).
  rewrite (proj2 (renderBreadcrumbs_passes_nothing _)).
  destruct (headerActions props), (actions props), (truthyString (description props)),
    mobileMenuOpen; cbn; rewrite ?app_nil_r; reflexivity.
Qed.

(** X23.  The shell has three click handlers of its own: the close button,
    the toggle and, only while the menu is open, the overlay.  Of these and
    of a change of route, the only one after which the menu is open is the
    toggle clicked while the menu is closed; the toggle always inverts the
    state. *)
Theorem menu_opens_only_by_the_toggle_while_closed
    (NAV : list NavItem) (props : AppShellProps (R := R)) (path : string)
    (mobileMenuOpen : bool) :
  handlers (AppShell NAV props path mobileMenuOpen)
  = (take 2 (shellHandlers mobileMenuOpen)
     ++ flat_map handlers (children props)
     ++ drop 2 (shellHandlers mobileMenuOpen))%list
  /\ length (shellHandlers mobileMenuOpen) = (if mobileMenuOpen then 3 else 2)%nat
  /\ imap (fun i h => (i, shellStep mobileMenuOpen (Click h)))
        (shellHandlers mobileMenuOpen)
     = imap (fun i _ => (i, bool_decide (i = 1%nat) && negb mobileMenuOpen))
         (shellHandlers mobileMenuOpen)
  /\ shellStep mobileMenuOpen RouteChange = false.
Proof.
  split; [apply AppShell_handlers|].
  destruct mobileMenuOpen; done.
Qed.

Lemma navLink_markedActive (path : string) (item : NavItem) :
  markedActive (navLink (R := R) path item) = isActive path item.
Proof.
  unfold markedActive, navLink. cbv zeta. cbn [attrsOf].
  destruct (isActive path item).
  - apply bool_decide_eq_true_2.
    rewrite elem_of_cons, !elem_of_app. right. right. right. by left.
  - apply bool_decide_eq_false_2. destruct (external item); not_in_attrs.
Qed.

Lemma no_active_without_href (path : string) (items : list NavItem) :
  Forall (fun item => match_ item = None) items ->
  path ∉ href <$> items ->
  filter (fun n => markedActive n = true) (renderNavItems (R := R) path items) = [].
Proof.
  unfold renderNavItems.
  induction items as [| item items IH]; intros Hm Hnot; [done|].
  apply Forall_cons in Hm as [Hm Hms].
  rewrite fmap_cons, not_elem_of_cons in Hnot. destruct Hnot as [Hne Hnot].
  rewrite fmap_cons, filter_cons_False; [by apply IH|].
  rewrite navLink_markedActive. unfold isActive. rewrite Hm.
  intros Heq. apply String.eqb_eq in Heq. done.
Qed.

(** X24.  When no navigation item has a [match] function and the items have
    distinct targets, the sidebar has one link per item, in order, and marks
    as current exactly the item whose target is the current path: one link
    if the path is a target, none otherwise. *)
Theorem sidebar_marks_the_item_of_the_current_path
    (path : string) (items : list NavItem)
    (Hmatch : Forall (fun item => match_ item = None) items)
    (Hdistinct : NoDup (href <$> items)) :
  attrsOf <$> renderNavItems (R := R) path items
  = (fun item => attrsOf (navLink (R := R) path item)) <$> items
  /\ filter (fun n => markedActive n = true) (renderNavItems (R := R) path items)
     = navLink path <$> filter (fun item => href item = path) items
  /\ length (filter (fun item => href item = path) items)
     = (if bool_decide (path ∈ href <$> items) then 1 else 0)%nat.
Proof.
  split; [unfold renderNavItems; by rewrite <- list_fmap_compose|].
  unfold renderNavItems.
  induction items as [| item items IH]; [done|].
  apply Forall_cons in Hmatch as [Hm Hms].
  rewrite fmap_cons in Hdistinct. apply NoDup_cons in Hdistinct as [Hnot Hnd].
  destruct (IH Hms Hnd) as [IH1 IH2].
  rewrite !fmap_cons.
  destruct (decide (href item = path)) as [Heq | Hne].
  - rewrite !filter_cons_True; [| done |].
    2:{ rewrite navLink_markedActive. unfold isActive. rewrite Hm.
        by apply String.eqb_eq. }
    rewrite fmap_cons. cbn [length].
    rewrite bool_decide_eq_true_2 by (rewrite Heq; by left).
    rewrite Heq in Hnot.
    rewrite bool_decide_eq_false_2 in IH2 by done.
    rewrite IH1, IH2. done.
  - rewrite !filter_cons_False; [| done |].
    2:{ rewrite navLink_markedActive. unfold isActive. rewrite Hm.
        intros Heq. apply String.eqb_eq in Heq. done. }
    split; [done|]. rewrite IH2.
    rewrite (bool_decide_ext (path ∈ href item :: (href <$> items))
               (path ∈ href <$> items)); [done|].
    rewrite elem_of_cons. split; [intros [E | E]; [congruence | done] | by right].
Qed.

Lemma separators_from (count offset : nat) (bs : list Breadcrumb) :
  length (flat_map (withClass "ms-breadcrumbs__separator")
            (imap (fun i => breadcrumbSpan (R := R) count (offset + i)) bs))
  = Nat.min (length bs) (count - 1 - offset).
Proof.
  revert offset. induction bs as [| b bs IH]; intros offset; [done|].
  cbn [imap flat_map]. rewrite length_app.
  rewrite (imap_ext _ (fun i => breadcrumbSpan count (S offset + i))).
  2:{ intros i x _. cbn. f_equal. lia. }
  rewrite IH. rewrite Nat.add_0_r.
  unfold breadcrumbSpan.
  destruct (truthyString (bc_href b));
    case_bool_decide; cbn [withClass flat_map app length];
    rewrite ?bool_decide_eq_false_2 by not_in_attrs;
    rewrite ?bool_decide_eq_true_2 by (by left);
    cbn [app length Nat.add]; lia.
Qed.

(** X25.  A trail of n breadcrumbs is rendered in one container with n - 1
    separators.  Without breadcrumbs, or with an empty list, nothing is
    rendered, not even the container. *)
Theorem breadcrumbs_have_one_separator_less_than_crumbs
    (bs : option (list Breadcrumb)) :
  length (flat_map (withClass "ms-breadcrumbs__separator")
            (renderBreadcrumbs (R := R) bs))
  = (length (default [] bs) - 1)%nat
  /\ length (flat_map (withClass "ms-breadcrumbs") (renderBreadcrumbs (R := R) bs))
     = (if bool_decide (0 < length (default [] bs))%nat then 1 else 0)%nat
  /\ (renderBreadcrumbs (R := R) bs = [] <-> default [] bs = []).
Proof.
  destruct bs as [[| b bs] |]; [done | | done].
  unfold renderBreadcrumbs, default.
  split; [| split; [| done]].
  - cbn [flat_map withClass]. rewrite app_nil_r.
    rewrite bool_decide_eq_false_2 by not_in_attrs.
    rewrite app_nil_l.
    pose proof (separators_from (length (b :: bs)) 0 (b :: bs)) as Hs.
    rewrite (imap_ext _ (breadcrumbSpan (length (b :: bs)))) in Hs
      by (intros; reflexivity).
    rewrite Hs. unfold id. cbn [length]. lia.
  - cbn [flat_map withClass]. rewrite app_nil_r.
    rewrite bool_decide_eq_true_2 by (by left).
    cbn [app length]. 
    rewrite (imap_passes_nothing (withClass "ms-breadcrumbs")).
    + done.
    + intros i x. unfold breadcrumbSpan.
      destruct (truthyString (bc_href x));
        case_bool_decide; cbn [withClass flat_map app];
        rewrite ?bool_decide_eq_false_2 by not_in_attrs; done.
Qed.

End ComponentFacts.

(* ------------------------------------------------------------------------- *)
(** ** The further properties at concrete inputs *)
(* ------------------------------------------------------------------------- *)

Section FurtherWitnesses.
Import Calendar Dashboard Upload Home Components Examples Visits.
Local Open Scope string_scope.


(** A click on the [30j] button of the dashboard opened with [?tab=users],
    the period [7d] being shown. *)
Lemma period_button_click_selects_its_period_witness :
  (thirtyDays ∈ periodButtons (Some "7d"))
  /\ m_error (selectMessages backendUp) = None
  /\ p_pathname (handlePeriodChange dashboardRouter "30d") = "/"
  /\ (forall k, k <> "period" ->
                p_query (handlePeriodChange dashboardRouter "30d") !! k
                = query dashboardRouter !! k)
  /\ selectPeriod (queryPeriod (p_query (handlePeriodChange dashboardRouter "30d")))
     = "30d"
  /\ exists props log',
       getServerSideProps
         (@HasSession host "root")
         (queryPeriod (p_query (handlePeriodChange dashboardRouter "30d")))
         noon noon backendUp []
       = (Props props, log')
       /\ selectedPeriod props = Some "30d"
       /\ b_onClick <$> List.filter isActiveButton
                          (periodButtons (selectedPeriod props))
          = ["30d"].
Proof.
  assert (Hb : thirtyDays ∈ periodButtons (Some "7d"))
    by (apply (list_elem_of_lookup_2 _ 1%nat); reflexivity).
  assert (Hm : m_error (selectMessages backendUp) = None) by reflexivity.
  split; [exact Hb|]. split; [exact Hm|].
  exact (@period_button_click_selects_its_period host "root" dashboardRouter
           (Some "7d") thirtyDays noon noon backendUp [] Hb Hm).
Defined.

(** Two readings of the clock one millisecond apart, around the start of a
    message: it is upcoming at the first and no longer at the second. *)
Lemma later_clock_never_counts_more_upcoming_witness :
  noon <= noon + 1
  /\ (upcoming (@messageStatsOf host [startingSoon; undated] noon (noon + 1)%Z)
      <= upcoming (@messageStatsOf host [startingSoon; undated] noon noon))%nat
  /\ upcoming (@messageStatsOf host [startingSoon; undated] noon noon) = 1%nat
  /\ upcoming (@messageStatsOf host [startingSoon; undated] noon (noon + 1)) = 0%nat.
Proof.
  assert (Hle : noon <= noon + 1) by (by vm_compute).
  split; [exact Hle|]. split; [| split; reflexivity].
  exact (proj1 (@later_clock_never_counts_more_upcoming host
                  [startingSoon; undated] noon noon (noon + 1) Hle)).
Defined.

(** Noon on 15 March 2024, a date of the year 2024. *)
Lemma startOfUtcDay_is_midnight_of_the_day_witness :
  ~ (0 <= YearFromDay (Day noon) <= 99)
  /\ startOfUtcDay noon = Day noon * msPerDay
  /\ startOfUtcDay noon <= noon < startOfUtcDay noon + msPerDay
  /\ Day (startOfUtcDay noon) = Day noon
  /\ TimeWithinDay (startOfUtcDay noon) = 0
  /\ startOfUtcDay (startOfUtcDay noon) = startOfUtcDay noon.
Proof.
  assert (Hyear : ~ (0 <= YearFromDay (Day noon) <= 99))
    by (apply (bool_decide_unpack _); vm_compute; exact I).
  split; [exact Hyear|].
  exact (startOfUtcDay_is_midnight_of_the_day noon Hyear).
Defined.


(** [holiday.PNG] and [x.y.png]. *)
Lemma content_type_ignores_stem_and_case_witness :
  hasNoDot "PNG" /\ hasNoDot "png" /\ toLowerCase "PNG" = toLowerCase "png"
  /\ contentTypeOf ("holiday" +:+ "." +:+ "PNG")
     = contentTypeOf ("x.y" +:+ "." +:+ "png")
  /\ contentTypeOf "PNG" = contentTypeOf ("x.y" +:+ "." +:+ "png").
Proof.
  assert (H1 : hasNoDot "PNG")
    by (unfold hasNoDot; apply (bool_decide_unpack _); vm_compute; exact I).
  assert (H2 : hasNoDot "png")
    by (unfold hasNoDot; apply (bool_decide_unpack _); vm_compute; exact I).
  assert (Hlow : toLowerCase "PNG" = toLowerCase "png") by reflexivity.
  split; [exact H1|]. split; [exact H2|]. split; [exact Hlow|].
  exact (content_type_ignores_stem_and_case "holiday" "x.y" "PNG" "png"
           H1 H2 Hlow).
Defined.

(** The sidebar on the page of the messages: the second link is marked. *)
Lemma sidebar_marks_the_item_of_the_current_path_witness :
  Forall (fun item => match_ item = None) sidebar
  /\ NoDup (href <$> sidebar)
  /\ attrsOf <$> renderNavItems (R := Empty_set) "/messages" sidebar
     = (fun item => attrsOf (navLink (R := Empty_set) "/messages" item))
         <$> sidebar
  /\ filter (fun n => markedActive n = true)
        (renderNavItems (R := Empty_set) "/messages" sidebar)
     = navLink "/messages"
         <$> filter (fun item => href item = "/messages") sidebar
  /\ length (filter (fun item => href item = "/messages") sidebar)
     = (if bool_decide ("/messages" ∈ href <$> sidebar) then 1 else 0)%nat.
Proof.
  assert (Hmatch : Forall (fun item => match_ item = None) sidebar)
    by (repeat constructor).
  assert (Hdistinct : NoDup (href <$> sidebar))
    by (apply (bool_decide_unpack _); vm_compute; exact I).
  split; [exact Hmatch|]. split; [exact Hdistinct|].
  exact (sidebar_marks_the_item_of_the_current_path (R := Empty_set)
           "/messages" sidebar Hmatch Hdistinct).
Defined.

End FurtherWitnesses.
